(** * XRT: the user-space device abstraction and the xocl sysfs node

    A shallow embedding of two files of the Xilinx runtime:

    - [xrt_core::device] (device.cpp): the registry of xclbin sections,
      the command-queue slot computation and the [boost::any] formatters;
    - [xocl_sysfs.c]: the attribute group of the user physical function
      and its binary attribute readers.

    C++ exceptions are an explicit outcome, the members of [device] are
    threaded through a state monad, and kernel memory is a function from
    byte offsets to bytes.  Integers are [Z] with every conversion between
    C types written out. *)

From Stdlib Require Import ZArith List String Lia Bool.
From Stdlib Require Import DecimalString HexadecimalString.
From Stdlib Require DecimalZ DecimalPos HexadecimalN HexadecimalPos.
From Stdlib Require Import Strings.Byte Strings.Ascii.
From stdpp Require Import base gmap strings.

Open Scope Z_scope.

(** ** Machine integers *)

Module Int.

Definition UINT32_MOD : Z := 2 ^ 32.
Definition UINT64_MOD : Z := 2 ^ 64.
Definition SSIZE_MAX : Z := 2 ^ 63 - 1.

(** Conversion to [u32] / [unsigned int]. *)
Definition to_u32 (z : Z) : Z := z mod UINT32_MOD.

(** Conversion to [size_t] / [uint64_t] (LP64). *)
Definition to_u64 (z : Z) : Z := z mod UINT64_MOD.

(** Conversion to [int] (two's complement, as gcc defines it). *)
Definition to_i32 (z : Z) : Z := (z + 2 ^ 31) mod UINT32_MOD - 2 ^ 31.

(** Conversion to [ssize_t] / [loff_t] (two's complement). *)
Definition to_i64 (z : Z) : Z := (z + 2 ^ 63) mod UINT64_MOD - 2 ^ 63.

End Int.

(** ** Outcomes of C++ code *)

(** The exceptions that the embedded code throws or lets through. *)
Inductive exn : Type :=
| runtime_error (what : string)      (* std::runtime_error *)
| xrt_error (what : string)          (* xrt_core::error *)
| no_such_key                        (* xrt_core::query::no_such_key *)
| other_exception (what : string).   (* anything else a callee raises *)

(** A call returns, throws, or has no defined behaviour (integer division
    by zero). *)
Inductive outcome (A : Type) : Type :=
| Ret (a : A)
| Throw (e : exn)
| Undefined.

Arguments Ret {A} a.
Arguments Throw {A} e.
Arguments Undefined {A}.

(** Unsigned division; a zero divisor has no defined behaviour. *)
Definition udiv (a b : Z) : outcome Z :=
  if b =? 0 then Undefined else Ret (a / b).

(** State and exceptions: a member function of an object of type [S]. *)
Definition M (S A : Type) : Type := S -> outcome A * S.

Definition mret {S A} (a : A) : M S A := fun s => (Ret a, s).

Definition mbind {S A B} (m : M S A) (k : A -> M S B) : M S B :=
  fun s =>
    match m s with
    | (Ret a, s') => k a s'
    | (Throw e, s') => (Throw e, s')
    | (Undefined, s') => (Undefined, s')
    end.

Definition mthrow {S A} (e : exn) : M S A := fun s => (Throw e, s).
Definition mget {S} : M S S := fun s => (Ret s, s).
Definition mmodify {S} (f : S -> S) : M S unit := fun s => (Ret tt, f s).

(** A call to a function that has no access to the object. *)
Definition mlift {S A} (o : outcome A) : M S A := fun s => (o, s).

Declare Scope cxx_scope.
Delimit Scope cxx_scope with cxx.
Notation "x <- c1 ;; c2" := (mbind c1 (fun x => c2))
  (at level 100, c1 at next level, right associativity) : cxx_scope.
Notation "c1 ;; c2" := (mbind c1 (fun _ => c2))
  (at level 100, right associativity) : cxx_scope.

(** [for (auto x : l) body(x);] *)
Fixpoint for_each {S A} (l : list A) (body : A -> M S unit) : M S unit :=
  match l with
  | [] => mret tt
  | x :: l' => mbind (body x) (fun _ => for_each l' body)
  end.

(** ** Bytes, pointers and uuids *)

#[global] Instance byte_eq_dec : EqDecision byte := Byte.byte_eq_dec.

(** A [const char*] is the bytes it points to; [nullptr] points to
    nothing. *)
Definition ptr : Type := option (list byte).
Definition nullptr : ptr := None.

(** [std::vector<char>::data()] of a vector that was built from a range
    and moved into the map, as [register_axlf] does.  Built from an empty
    range, the vector owns no storage and its data pointer is null (so in
    libstdc++, libc++ and the MSVC library); otherwise the pointer leads
    to the elements. *)
Definition vector_data (v : list byte) : ptr :=
  match v with
  | [] => nullptr
  | _ :: _ => Some v
  end.

(** [std::vector<char>::size()]. *)
Definition vector_size (v : list byte) : Z := Z.of_nat (length v).

(** [xuid_t]: sixteen bytes. *)
Definition xuid_t : Type := list byte.

(** [xrt_core::uuid] wraps an [xuid_t]. *)
Record uuid : Type := mk_uuid { m_uuid : xuid_t }.

#[global] Instance uuid_eq_dec : EqDecision uuid.
Proof. solve_decision. Defined.

(** [uuid()]: [uuid_clear]. *)
Definition uuid_nil : uuid := mk_uuid (repeat x00 16).

(** [uuid(const xuid_t)]: [uuid_copy]. *)
Definition uuid_of_xuid (val : xuid_t) : uuid := mk_uuid val.

(** [uuid::operator bool]: [uuid_is_null(m_uuid) == false]. *)
Definition uuid_bool (u : uuid) : bool :=
  negb (forallb (fun b => Byte.eqb b x00) (m_uuid u)).

(** [uuid::operator!=]: [uuid_compare] is non-zero. *)
Definition uuid_neq (a b : uuid) : bool := negb (bool_decide (a = b)).

(** ** The xclbin container *)

(** [enum axlf_section_kind].  The five enumerators that device.cpp names,
    and [OTHER_KIND n] for the n-th of the remaining enumerators of
    xclbin.h. *)
Inductive axlf_section_kind : Type :=
| EMBEDDED_METADATA
| AIE_METADATA
| IP_LAYOUT
| CONNECTIVITY
| MEM_TOPOLOGY
| OTHER_KIND (n : nat).

#[global] Instance axlf_section_kind_eq_dec : EqDecision axlf_section_kind.
Proof. solve_decision. Defined.

Definition kind_code (k : axlf_section_kind) : nat :=
  match k with
  | EMBEDDED_METADATA => 0
  | AIE_METADATA => 1
  | IP_LAYOUT => 2
  | CONNECTIVITY => 3
  | MEM_TOPOLOGY => 4
  | OTHER_KIND n => 5 + n
  end%nat.

Definition kind_of_code (c : nat) : axlf_section_kind :=
  match c with
  | 0 => EMBEDDED_METADATA
  | 1 => AIE_METADATA
  | 2 => IP_LAYOUT
  | 3 => CONNECTIVITY
  | 4 => MEM_TOPOLOGY
  | S (S (S (S (S n)))) => OTHER_KIND n
  end%nat.

#[global] Instance axlf_section_kind_countable : Countable axlf_section_kind.
Proof. refine (inj_countable' kind_code kind_of_code _). by intros []. Defined.

(** [struct axlf_section_header]; offset and size are [uint64_t]. *)
Record axlf_section_header : Type := mk_section_header {
  m_sectionKind : axlf_section_kind;
  m_sectionOffset : nat;
  m_sectionSize : nat
}.

(** [struct axlf]: the uuid of [m_header], the [m_numSections] section
    headers, and the memory that starts at the address of the struct. *)
Record axlf : Type := mk_axlf {
  m_header_uuid : xuid_t;
  m_sections : list axlf_section_header;
  axlf_mem : nat -> byte
}.

(** Modelled from the spec: [::xclbin::get_axlf_section] of xclbin.h, which
    is not among the sources.  The section of a kind is the first header
    in [m_sections] that carries the kind, a null pointer when there is
    none. *)
Definition xclbin_get_axlf_section (top : axlf) (kind : axlf_section_kind)
  : option axlf_section_header :=
  find (fun hdr => bool_decide (m_sectionKind hdr = kind)) (m_sections top).

(** The range [[first, first + n)] of the memory. *)
Definition read_range (mem : nat -> byte) (first n : nat) : list byte :=
  map mem (seq first n).

(** ** xrt_core::device *)

(** The data members of [device] that device.cpp touches. *)
Record device : Type := mk_device {
  m_device_id : Z;
  m_xclbin_uuid : uuid;
  m_axlf_sections : gmap axlf_section_kind (list byte)
}.

(** [device::device(id_type)]. *)
Definition new_device (device_id : Z) : device :=
  {| m_device_id := device_id;
     m_xclbin_uuid := uuid_nil;
     m_axlf_sections := ∅ |}.

Definition set_xclbin_uuid (u : uuid) (d : device) : device :=
  {| m_device_id := m_device_id d;
     m_xclbin_uuid := u;
     m_axlf_sections := m_axlf_sections d |}.

Definition set_axlf_sections (m : gmap axlf_section_kind (list byte))
    (d : device) : device :=
  {| m_device_id := m_device_id d;
     m_xclbin_uuid := m_xclbin_uuid d;
     m_axlf_sections := m |}.

(** [std::map::emplace]: an existing key keeps its value. *)
Definition emplace (k : axlf_section_kind) (v : list byte)
    (m : gmap axlf_section_kind (list byte)) : gmap axlf_section_kind (list byte) :=
  match m !! k with
  | Some _ => m
  | None => <[k := v]> m
  end.

Definition kinds : list axlf_section_kind :=
  [EMBEDDED_METADATA; AIE_METADATA; IP_LAYOUT; CONNECTIVITY; MEM_TOPOLOGY].

(** The bytes of a section: [m_sectionSize] bytes from [m_sectionOffset]
    on, counted from the address of [top]. *)
Definition section_data (top : axlf) (hdr : axlf_section_header) : list byte :=
  read_range (axlf_mem top) (m_sectionOffset hdr) (m_sectionSize hdr).

(** The body of the loop of [register_axlf]. *)
Definition register_kind (top : axlf) (kind : axlf_section_kind) : M device unit :=
  match xclbin_get_axlf_section top kind with
  | None => mret tt
  | Some hdr =>
      let data := section_data top hdr in
      mmodify (fun d => set_axlf_sections (emplace kind data (m_axlf_sections d)) d)
  end.

(** [device::register_axlf]. *)
Definition register_axlf (top : axlf) : M device unit :=
  (mmodify (set_axlf_sections ∅) ;;
   mmodify (set_xclbin_uuid (uuid_of_xuid (m_header_uuid top))) ;;
   for_each kinds (register_kind top))%cxx.

(** [device::get_axlf_section]. *)
Definition get_axlf_section (section : axlf_section_kind) (xclbin_id : uuid)
  : M device (ptr * Z) :=
  (d <- mget ;;
   if uuid_bool xclbin_id && uuid_neq xclbin_id (m_xclbin_uuid d)
   then mthrow (runtime_error "xclbin id mismatch")
   else
     match m_axlf_sections d !! section with
     | Some v => mret (vector_data v, vector_size v)
     | None => mret (nullptr, 0)
     end)%cxx.

(** [device::get_axlf_section_or_error]. *)
Definition get_axlf_section_or_error (section : axlf_section_kind)
    (xclbin_id : uuid) : M device (ptr * Z) :=
  (ret <- get_axlf_section section xclbin_id ;;
   match fst ret with
   | Some _ => mret ret
   | None => mthrow (runtime_error "no such xclbin section")
   end)%cxx.

(** [try { body } catch (const query::no_such_key&) { } handler]: only
    [no_such_key] is caught, every other exception propagates. *)
Definition catch_no_such_key {S A} (body handler : M S A) : M S A :=
  fun s =>
    match body s with
    | (Throw no_such_key, s') => handler s'
    | r => r
    end.

Section Query.

(** [device_query<query::xclbin_uuid>(this)], answered by the shim. *)
Variable device_query_xclbin_uuid : device -> outcome string.

(** [uuid(const std::string&)]: [uuid_parse]. *)
Variable uuid_of_string : string -> uuid.

(** [device::get_xclbin_uuid]. *)
Definition get_xclbin_uuid : M device uuid :=
  catch_no_such_key
    (d <- mget ;;
     uuid_str <- mlift (device_query_xclbin_uuid d) ;;
     mret (uuid_of_string uuid_str))%cxx
    (* Emulation mode likely *)
    (mret uuid_nil).

End Query.

(** [std::to_string] of an integer. *)
Definition to_string (z : Z) : string :=
  DecimalString.NilZero.string_of_int (Z.to_int z).

Section ErtSlots.

(** [ERT_CQ_SIZE], a macro of ert.h. *)
Variable ERT_CQ_SIZE : Z.

(** [config::get_ert_slotsize()]: the [unsigned int] that xrt.ini gives
    for the slot size, 0 when it gives none. *)
Variable get_ert_slotsize : Z.

(** [xrt_core::xclbin::get_cus] and [get_max_cu_size], the parsers of the
    xml metadata. *)
Variable get_cus : ptr -> Z -> outcome (list Z).
Variable get_max_cu_size : ptr -> Z -> outcome Z.

Definition max_slots : Z := 128.
Definition min_slots : Z := 16.

(** [device::get_ert_slots(const char*, size_t)]. *)
Definition get_ert_slots (xml_data : ptr) (xml_size : Z) : M device (Z * Z) :=
  (let cq_size := ERT_CQ_SIZE in
   let size := get_ert_slotsize in
   if negb (size =? 0) then
     q <- mlift (udiv cq_size size) ;;
     if q >? max_slots
     then mthrow (runtime_error
                    ("invalid slot size '" +:+ to_string size +:+ "' in xrt.ini"))
     else
       q' <- mlift (udiv cq_size size) ;;
       mret (q', size)
   else
     cus <- mlift (get_cus xml_data xml_size) ;;
     let num_cus := Z.of_nat (length cus) in
     let slots :=
       Z.min max_slots (Z.max min_slots (Int.to_u64 (num_cus * 2 + 1))) in
     q <- mlift (udiv cq_size slots) ;;
     max_cu <- mlift (get_max_cu_size xml_data xml_size) ;;
     let size := Z.max q max_cu in
     slots <- mlift (udiv cq_size size) ;;
     let slots :=
       if slots >? 16 then
         let idx := (slots - 1) / 32 in
         Int.to_u64 ((idx + 1) * 32)
       else slots in
     size' <- mlift (udiv cq_size slots) ;;
     mret (slots, size'))%cxx.

(** [device::get_ert_slots()]; the uuid argument of [get_axlf_section]
    defaults to [uuid()]. *)
Definition get_ert_slots_xclbin : M device (Z * Z) :=
  (xml <- get_axlf_section EMBEDDED_METADATA uuid_nil ;;
   match fst xml with
   | None => mthrow (runtime_error "No xml metadata in xclbin")
   | Some _ => get_ert_slots (fst xml) (snd xml)
   end)%cxx.

End ErtSlots.

(** ** The formatters of [boost::any] values *)

(** The types a [boost::any] is tested for, [int], and the rest. *)
Inductive type_id : Type :=
| ty_string | ty_uint64 | ty_uint16 | ty_uint8 | ty_bool | ty_int
| ty_other (n : nat).

(** A [boost::any] with its content. *)
Inductive any : Type :=
| any_string (s : string)
| any_uint64 (v : Z)
| any_uint16 (v : Z)
| any_uint8 (v : Z)
| any_bool (b : bool)
| any_int (v : Z)
| any_other (n : nat).

(** [boost::any::type()]. *)
Definition any_type (a : any) : type_id :=
  match a with
  | any_string _ => ty_string
  | any_uint64 _ => ty_uint64
  | any_uint16 _ => ty_uint16
  | any_uint8 _ => ty_uint8
  | any_bool _ => ty_bool
  | any_int _ => ty_int
  | any_other n => ty_other n
  end.

(** The digits that [%x] prints for an unsigned value. *)
Definition hex (z : Z) : string :=
  HexadecimalString.NilZero.string_of_uint (N.to_hex_uint (Z.to_N z)).

Section Format.

(** [std::type_info::name()]. *)
Variable type_name : type_id -> string.

(** [device::format_primative]. *)
Definition format_primative (_data : any) : outcome string :=
  match _data with
  | any_string s => Ret s
  | any_uint64 v => Ret (to_string v)
  | any_uint16 v => Ret (to_string v)
  | any_bool b => Ret (if b then "true" else "false")
  | _ =>
      let errMsg :=
        "Unsupported 'any' typeid: '" +:+ type_name (any_type _data) +:+ "'" in
      Throw (xrt_error errMsg)
  end.

(** [device::format_hex].  A [uint8_t] is an [unsigned char], which the
    stream behind [boost::format] writes as one character. *)
Definition format_hex (_data : any) : outcome string :=
  match _data with
  | any_uint64 v => Ret ("0x" +:+ hex v)
  | any_uint16 v => Ret ("0x" +:+ hex v)
  | any_uint8 v => Ret ("0x" +:+ String (Ascii.ascii_of_N (Z.to_N v)) "")
  | _ => format_primative _data
  end.

(** [device::format_hex_base2_shiftup30].  The shift of a [uint64_t] is
    a [uint64_t]; a [uint16_t] or [uint8_t] is promoted to [int] first
    and the shift is an [int]. *)
Definition format_hex_base2_shiftup30 (_data : any) : outcome string :=
  match _data with
  | any_uint64 v =>
      let modifiedValue := any_uint64 (Int.to_u64 (Z.shiftl v 30)) in
      format_hex modifiedValue
  | any_uint16 v =>
      let modifiedValue := any_int (Int.to_i32 (Z.shiftl v 30)) in
      format_hex modifiedValue
  | any_uint8 v =>
      let modifiedValue := any_int (Int.to_i32 (Z.shiftl v 30)) in
      format_hex modifiedValue
  | _ => format_primative _data
  end.

End Format.

(** ** xocl_sysfs.c *)

(** Kernel memory seen from a base address: a byte at every offset. *)
Definition kmem : Type := Z -> byte.

(** A section of the loaded bitstream as the driver keeps it
    ([struct ip_layout], [struct debug_ip_layout], [struct connectivity],
    [struct mem_topology]): the [m_count] field of its header and the
    memory that starts at the address of the struct. *)
Record ksection : Type := mk_ksection {
  m_count : Z;
  sect_mem : kmem
}.

(** How a kind of section is laid out: the offset of the array [data] in
    the struct and the size of one entry of the array. *)
Record sect_layout : Type := mk_sect_layout {
  data_offset : Z;
  data_size : Z
}.

(** Modelled from the spec: the macro [sizeof_sect(sect, data)] of the
    driver's headers, which are not among the sources.  A null section has
    size 0; otherwise the size is the offset of the array [data] plus
    [m_count] entries, computed in [size_t]. *)
Definition sizeof_sect (lay : sect_layout) (sect : option ksection) : Z :=
  match sect with
  | None => 0
  | Some s =>
      let data_size := Int.to_u64 (Int.to_u64 (m_count s) * data_size lay) in
      Int.to_u64 (data_offset lay + data_size)
  end.

(** The memory behind a section pointer. *)
Definition mem_of (sect : option ksection) : kmem :=
  match sect with
  | None => fun _ => x00
  | Some s => sect_mem s
  end.

(** [memcpy(dst, src + offset, n)]. *)
Definition memcpy (dst src : kmem) (offset n : Z) : kmem :=
  fun i => if (0 <=? i) && (i <? n) then src (offset + i) else dst i.

(** The fields of [struct xocl_dev] that the readers use; a null pointer
    is [None]. *)
Record xocl_dev : Type := mk_xocl_dev {
  debug_layout : option ksection;
  layout : option ksection;
  connectivity : option ksection;
  topology : option ksection
}.

(** The common body of the four readers: [size] is what [sizeof_sect]
    gave, [sect] the section read.  [offset] is a [loff_t], converted to
    [size_t] where it meets [size]; [nread] is a [u32]. *)
Definition read_sect (size : Z) (sect : option ksection)
    (buffer : kmem) (offset count : Z) : Z * kmem :=
  if Int.to_u64 offset >=? size then (0, buffer)
  else
    let nread :=
      if count <? Int.to_u64 (size - Int.to_u64 offset)
      then Int.to_u32 count
      else Int.to_u32 (Int.to_u64 (size - Int.to_u64 offset)) in
    (nread, memcpy buffer (mem_of sect) offset nread).

Section Layouts.

(** The layouts of the four structs of xclbin.h. *)
Variables m_debug_ip_data m_ip_data m_connection m_mem_data : sect_layout.

(** [read_debug_ip_layout]. *)
Definition read_debug_ip_layout (xdev : xocl_dev) (buffer : kmem)
    (offset count : Z) : Z * kmem :=
  let size := sizeof_sect m_debug_ip_data (debug_layout xdev) in
  read_sect size (debug_layout xdev) buffer offset count.

(** [read_ip_layout]. *)
Definition read_ip_layout (xdev : xocl_dev) (buffer : kmem)
    (offset count : Z) : Z * kmem :=
  let size := sizeof_sect m_ip_data (layout xdev) in
  read_sect size (layout xdev) buffer offset count.

(** [read_connectivity]. *)
Definition read_connectivity (xdev : xocl_dev) (buffer : kmem)
    (offset count : Z) : Z * kmem :=
  let size := sizeof_sect m_connection (connectivity xdev) in
  read_sect size (connectivity xdev) buffer offset count.

(** [read_mem_topology]. *)
Definition read_mem_topology (xdev : xocl_dev) (buffer : kmem)
    (offset count : Z) : Z * kmem :=
  let size := sizeof_sect m_mem_data (topology xdev) in
  read_sect size (topology xdev) buffer offset count.

End Layouts.

(** An octal constant of C, most significant digit first. *)
Definition octal (digits : list Z) : Z :=
  fold_left (fun acc d => acc * 8 + d) digits 0.

(** [struct attribute]. *)
Record attribute : Type := mk_attribute {
  name : string;
  mode : Z
}.

(** The [show] callbacks, by their symbol; they only format text. *)
Inductive show_fn : Type :=
| xclbinuuid_show | userbar_show | user_pf_show
| kdsstat_show | memstat_show | memstat_raw_show.

(** A [store] callback gets the device, the bytes written and their
    count; it returns an [ssize_t] and the device as it left it. *)
Definition store_fn : Type := xocl_dev -> kmem -> Z -> Z * xocl_dev.

(** [struct device_attribute]; a null callback is [None]. *)
Record device_attribute : Type := mk_device_attribute {
  attr : attribute;
  show : option show_fn;
  store : option store_fn
}.

(** A [read] callback of a binary attribute gets the device, the buffer
    to fill, the offset and the count; it returns an [ssize_t] and the
    buffer as it left it.  A [write] callback gets the bytes to write. *)
Definition bin_read_fn : Type := xocl_dev -> kmem -> Z -> Z -> Z * kmem.
Definition bin_write_fn : Type := xocl_dev -> kmem -> Z -> Z -> Z * xocl_dev.

(** [struct bin_attribute]; a null callback is [None]. *)
Record bin_attribute : Type := mk_bin_attribute {
  battr : attribute;
  bread : option bin_read_fn;
  bwrite : option bin_write_fn;
  bsize : Z
}.

(** [DEVICE_ATTR_RO(name)]: mode 0444, [name_show], no [store]. *)
Definition DEVICE_ATTR_RO (nm : string) (sh : show_fn) : device_attribute :=
  {| attr := {| name := nm; mode := octal [4; 4; 4] |}; show := Some sh; store := None |}.

(** [DEVICE_ATTR_WO(name)]: mode 0200, no [show], [name_store]. *)
Definition DEVICE_ATTR_WO (nm : string) (st : store_fn) : device_attribute :=
  {| attr := {| name := nm; mode := octal [2; 0; 0] |}; show := None; store := Some st |}.

(** [struct attribute_group]. *)
Record attribute_group : Type := mk_attribute_group {
  attrs : list device_attribute;
  bin_attrs : list bin_attribute
}.

(** What the driver sees of the kernel: the message log and the groups
    that sysfs holds for the device. *)
Record kernel : Type := mk_kernel {
  klog : list string;
  sysfs : list attribute_group
}.

(** [xocl_err(dev, fmt, ...)]: one line in the log. *)
Definition xocl_err (msg : string) (k : kernel) : kernel :=
  {| klog := klog k ++ [msg]; sysfs := sysfs k |}.

Section Driver.

Variables m_debug_ip_data m_ip_data m_connection m_mem_data : sect_layout.

(** [xocl_hot_reset(xdev, force)]: an [int] and the device after it. *)
Variable xocl_hot_reset : xocl_dev -> bool -> Z * xocl_dev.

(** [sysfs_create_group] and [sysfs_remove_group] of the kernel. *)
Variable sysfs_create_group : attribute_group -> kernel -> Z * kernel.
Variable sysfs_remove_group : attribute_group -> kernel -> kernel.

(** [reset_store]; [count] is a [size_t] returned as [ssize_t]. *)
Definition reset_store : store_fn :=
  fun dev buf count =>
    let (ret, dev') := xocl_hot_reset dev false in
    if ret =? 0 then (Int.to_i64 count, dev')
    else (ret, dev').

Definition dev_attr_xclbinuuid := DEVICE_ATTR_RO "xclbinuuid" xclbinuuid_show.
Definition dev_attr_userbar := DEVICE_ATTR_RO "userbar" userbar_show.
Definition dev_attr_user_pf := DEVICE_ATTR_RO "user_pf" user_pf_show.
Definition dev_attr_kdsstat := DEVICE_ATTR_RO "kdsstat" kdsstat_show.
Definition dev_attr_memstat := DEVICE_ATTR_RO "memstat" memstat_show.
Definition dev_attr_memstat_raw := DEVICE_ATTR_RO "memstat_raw" memstat_raw_show.
Definition dev_attr_reset := DEVICE_ATTR_WO "reset" reset_store.

Definition debug_ip_layout_attr : bin_attribute :=
  {| battr := {| name := "debug_ip_layout"; mode := octal [4; 4; 4] |};
     bread := Some (read_debug_ip_layout m_debug_ip_data);
     bwrite := None;
     bsize := 0 |}.

Definition ip_layout_attr : bin_attribute :=
  {| battr := {| name := "ip_layout"; mode := octal [4; 4; 4] |};
     bread := Some (read_ip_layout m_ip_data);
     bwrite := None;
     bsize := 0 |}.

Definition connectivity_attr : bin_attribute :=
  {| battr := {| name := "connectivity"; mode := octal [4; 4; 4] |};
     bread := Some (read_connectivity m_connection);
     bwrite := None;
     bsize := 0 |}.

Definition mem_topology_attr : bin_attribute :=
  {| battr := {| name := "mem_topology"; mode := octal [4; 4; 4] |};
     bread := Some (read_mem_topology m_mem_data);
     bwrite := None;
     bsize := 0 |}.

Definition xocl_attrs : list device_attribute :=
  [dev_attr_xclbinuuid; dev_attr_userbar; dev_attr_kdsstat;
   dev_attr_memstat; dev_attr_memstat_raw; dev_attr_user_pf;
   dev_attr_reset].

Definition xocl_bin_attrs : list bin_attribute :=
  [debug_ip_layout_attr; ip_layout_attr; connectivity_attr;
   mem_topology_attr].

Definition xocl_attr_group : attribute_group :=
  {| attrs := xocl_attrs; bin_attrs := xocl_bin_attrs |}.

(** [xocl_init_sysfs]. *)
Definition xocl_init_sysfs (k : kernel) : Z * kernel :=
  let (ret, k') := sysfs_create_group xocl_attr_group k in
  if negb (ret =? 0)
  then (ret, xocl_err ("create xocl attrs failed: " +:+ to_string ret) k')
  else (ret, k').

(** [xocl_fini_sysfs]. *)
Definition xocl_fini_sysfs (k : kernel) : kernel :=
  sysfs_remove_group xocl_attr_group k.

End Driver.

(** ** Sample inputs *)

(** A container of three sections: five bytes of xml metadata, a two-byte
    section of a kind that the device does not keep, and an IP layout of
    size zero. *)
Definition sample_xuid : xuid_t :=
  [x01; x02; x03; x04; x05; x06; x07; x08;
   x09; x0a; x0b; x0c; x0d; x0e; x0f; x10].

Definition sample_mem : nat -> byte :=
  fun i => nth i [x3c; x78; x6d; x6c; x3e; xca; xfe] x00.

Definition sample_top : axlf :=
  {| m_header_uuid := sample_xuid;
     m_sections :=
       [ {| m_sectionKind := EMBEDDED_METADATA;
            m_sectionOffset := 0; m_sectionSize := 5 |};
         {| m_sectionKind := OTHER_KIND 0;
            m_sectionOffset := 5; m_sectionSize := 2 |};
         {| m_sectionKind := IP_LAYOUT;
            m_sectionOffset := 7; m_sectionSize := 0 |} ];
     axlf_mem := sample_mem |}.

(** A device after [register_axlf(sample_top)]. *)
Definition sample_device : device :=
  snd (register_axlf sample_top (new_device 0)).

(** A device that still holds a connectivity section from an earlier
    container. *)
Definition stale_device : device :=
  {| m_device_id := 0;
     m_xclbin_uuid := mk_uuid (repeat xff 16);
     m_axlf_sections := {[ CONNECTIVITY := [x01; x02] ]} |}.

(** A layout with an 8-byte header and entries of 80 bytes, and one with
    entries of 4 bytes. *)
Definition wide_layout : sect_layout := {| data_offset := 8; data_size := 80 |}.
Definition narrow_layout : sect_layout := {| data_offset := 8; data_size := 4 |}.

(** Sixteen bytes of section: the offset of each byte, from 0x10 on. *)
Definition small_section : ksection :=
  {| m_count := 2; sect_mem := fun i => nth (Z.to_nat i)
       [x10; x11; x12; x13; x14; x15; x16; x17;
        x18; x19; x1a; x1b; x1c; x1d; x1e; x1f] x00 |}.

(** A section of 2^26 entries: with [wide_layout], more than 4 GiB. *)
Definition huge_section : ksection :=
  {| m_count := 2 ^ 26; sect_mem := fun _ => xaa |}.

Definition small_xdev : xocl_dev :=
  {| debug_layout := None; layout := Some small_section;
     connectivity := None; topology := None |}.

Definition huge_xdev : xocl_dev :=
  {| debug_layout := None; layout := Some huge_section;
     connectivity := None; topology := None |}.

(** A caller's buffer filled with 0xee. *)
Definition user_buffer : kmem := fun _ => xee.

(** A kernel in which sysfs has no room for a further group. *)
Definition empty_kernel : kernel := {| klog := []; sysfs := [] |}.
Definition ENOMEM : Z := 12.
Definition failing_create_group (g : attribute_group) (k : kernel) : Z * kernel :=
  (- ENOMEM, k).

(** ** The decimal formatters of device.cpp *)

Section FormatFixed.

Variable type_name : type_id -> string.

(** The type [double], the conversion of a [uint64_t] to it, the literals
    [1000.0] and [1000000.0], the division, and the static template
    [to_string(value, precision)], which prints in fixed notation. *)
Variable double : Type.
Variable double_of_uint64 : Z -> double.
Variable double_of_literal : Z -> double.
Variable double_div : double -> double -> double.
Variable to_string_fixed : double -> Z -> string.

(** [device::format_base10_shiftdown3]. *)
Definition format_base10_shiftdown3 (_data : any) : outcome string :=
  match _data with
  | any_uint64 v =>
      let value := double_of_uint64 v in
      let value := double_div value (double_of_literal 1000) in
      Ret (to_string_fixed value 3)
  | _ => format_primative type_name _data
  end.

(** [device::format_base10_shiftdown6]. *)
Definition format_base10_shiftdown6 (_data : any) : outcome string :=
  match _data with
  | any_uint64 v =>
      let value := double_of_uint64 v in
      let value := double_div value (double_of_literal 1000000) in
      Ret (to_string_fixed value 6)
  | _ => format_primative type_name _data
  end.

End FormatFixed.

(** ** Readers of what the code writes *)

(** The number that a decimal numeral denotes, and the number that a
    hexadecimal numeral after [0x] denotes. *)
Definition read_decimal (s : string) : option Z :=
  Z.of_int <$> DecimalString.NilZero.int_of_string s.

Definition read_hex (s : string) : option Z :=
  match s with
  | String "0"%char (String "x"%char digits) =>
      (fun d => Z.of_N (N.of_hex_uint d))
        <$> HexadecimalString.NilZero.uint_of_string digits
  | _ => None
  end.

(** The first [n] bytes of a buffer. *)
Definition bytes_of (buf : kmem) (n : Z) : list byte :=
  map (fun i => buf (Z.of_nat i)) (seq 0 (Z.to_nat n)).

(** The four readers of the binary attributes, each with the size and the
    section that it reads. *)
Definition bin_readers (m_debug_ip_data m_ip_data m_connection m_mem_data : sect_layout)
    (xdev : xocl_dev) : list (bin_read_fn * Z * option ksection) :=
  [ (read_debug_ip_layout m_debug_ip_data,
     sizeof_sect m_debug_ip_data (debug_layout xdev), debug_layout xdev);
    (read_ip_layout m_ip_data,
     sizeof_sect m_ip_data (layout xdev), layout xdev);
    (read_connectivity m_connection,
     sizeof_sect m_connection (connectivity xdev), connectivity xdev);
    (read_mem_topology m_mem_data,
     sizeof_sect m_mem_data (topology xdev), topology xdev) ].

(** A container whose xml metadata is its first five bytes and nothing
    else. *)
Definition xml_only_top : axlf :=
  {| m_header_uuid := repeat x22 16;
     m_sections :=
       [ {| m_sectionKind := EMBEDDED_METADATA;
            m_sectionOffset := 0; m_sectionSize := 5 |} ];
     axlf_mem := sample_mem |}.

(** Two expressions of [get_ert_slots], by name: the slots asked for
    [num_cus] compute units, and a slot count rounded up to the next
    status register. *)
Definition wanted_slots (num_cus : Z) : Z :=
  Z.min max_slots (Z.max min_slots (Int.to_u64 (num_cus * 2 + 1))).

Definition round_slots (slots : Z) : Z :=
  if slots >? 16 then Int.to_u64 (((slots - 1) / 32 + 1) * 32) else slots.

(** A container with a two-byte section of each of the five kinds that the
    device keeps, and a two-byte section of another kind. *)
Definition full_mem : nat -> byte :=
  fun i => nth i [xa0; xa1; xa2; xa3; xa4; xa5; xa6; xa7; xa8; xa9; xaa; xab] x00.

Definition full_top : axlf :=
  {| m_header_uuid := repeat x33 16;
     m_sections :=
       [ {| m_sectionKind := EMBEDDED_METADATA;
            m_sectionOffset := 0; m_sectionSize := 2 |};
         {| m_sectionKind := AIE_METADATA;
            m_sectionOffset := 2; m_sectionSize := 2 |};
         {| m_sectionKind := IP_LAYOUT;
            m_sectionOffset := 4; m_sectionSize := 2 |};
         {| m_sectionKind := CONNECTIVITY;
            m_sectionOffset := 6; m_sectionSize := 2 |};
         {| m_sectionKind := MEM_TOPOLOGY;
            m_sectionOffset := 8; m_sectionSize := 2 |};
         {| m_sectionKind := OTHER_KIND 1;
            m_sectionOffset := 10; m_sectionSize := 2 |} ];
     axlf_mem := full_mem |}.

(** * Properties *)

(** ** The model on small inputs *)

Example to_string_decimal : to_string 4096 = "4096" /\ to_string (-12) = "-12".
Proof. split; reflexivity. Qed.

Example hex_digits : hex 48879 = "beef" /\ hex 0 = "0".
Proof. split; reflexivity. Qed.

Example sample_device_sections :
  m_axlf_sections sample_device !! EMBEDDED_METADATA
  = Some [x3c; x78; x6d; x6c; x3e]
  /\ m_axlf_sections sample_device !! IP_LAYOUT = Some []
  /\ m_axlf_sections sample_device !! OTHER_KIND 0 = None
  /\ m_xclbin_uuid sample_device = mk_uuid sample_xuid.
Proof. repeat split; reflexivity. Qed.

(** Sixteen compute units ask for 33 slots, which are rounded up to 64. *)
Example get_ert_slots_16_cus :
  fst (get_ert_slots 65536 0
         (fun _ _ => Ret (repeat 1 16)) (fun _ _ => Ret 100)
         nullptr 0 sample_device)
  = Ret (64, 1024).
Proof. reflexivity. Qed.

(** A compute unit as large as the queue leaves one slot. *)
Example get_ert_slots_one_slot :
  fst (get_ert_slots 65536 0
         (fun _ _ => Ret [0]) (fun _ _ => Ret 65536)
         nullptr 0 sample_device)
  = Ret (1, 65536).
Proof. reflexivity. Qed.

Example format_hex_base2_shiftup30_5 :
  format_hex_base2_shiftup30 (fun _ => "i") (any_uint64 5) = Ret "0x140000000"
  /\ format_hex_base2_shiftup30 (fun _ => "i") (any_uint16 5)
     = Throw (xrt_error "Unsupported 'any' typeid: 'i'").
Proof. split; reflexivity. Qed.

Example read_ip_layout_small :
  fst (read_ip_layout narrow_layout small_xdev user_buffer 0 8) = 8
  /\ fst (read_ip_layout narrow_layout small_xdev user_buffer 16 8) = 0
  /\ fst (read_debug_ip_layout narrow_layout small_xdev user_buffer 0 8) = 0.
Proof. repeat split; reflexivity. Qed.

(** ** Integer conversions *)

Lemma to_u32_small z : 0 <= z < Int.UINT32_MOD -> Int.to_u32 z = z.
Proof. intros H. unfold Int.to_u32. now apply Z.mod_small. Qed.

Lemma to_u64_small z : 0 <= z < Int.UINT64_MOD -> Int.to_u64 z = z.
Proof. intros H. unfold Int.to_u64. now apply Z.mod_small. Qed.

Lemma to_u32_range z : 0 <= Int.to_u32 z < Int.UINT32_MOD.
Proof. unfold Int.to_u32, Int.UINT32_MOD. apply Z.mod_pos_bound. lia. Qed.

Lemma to_u64_range z : 0 <= Int.to_u64 z < Int.UINT64_MOD.
Proof. unfold Int.to_u64, Int.UINT64_MOD. apply Z.mod_pos_bound. lia. Qed.

Lemma to_i64_small z : - 2 ^ 63 <= z <= Int.SSIZE_MAX -> Int.to_i64 z = z.
Proof.
  intros H. unfold Int.to_i64, Int.UINT64_MOD, Int.SSIZE_MAX in *.
  rewrite Z.mod_small; lia.
Qed.

Lemma udiv_nonzero a b : b <> 0 -> udiv a b = Ret (a / b).
Proof. intros H. unfold udiv. destruct (Z.eqb_spec b 0); congruence. Qed.

(** ** Uuids *)

Lemma uuid_neq_true a b : uuid_neq a b = true <-> a <> b.
Proof.
  unfold uuid_neq. rewrite negb_true_iff, bool_decide_eq_false. tauto.
Qed.

Lemma uuid_nil_is_null : uuid_bool uuid_nil = false.
Proof. reflexivity. Qed.

(** The test of [get_axlf_section], as a proposition. *)
Lemma id_check_true id d :
  uuid_bool id && uuid_neq id (m_xclbin_uuid d) = true
  <-> uuid_bool id = true /\ id <> m_xclbin_uuid d.
Proof. rewrite andb_true_iff, uuid_neq_true. tauto. Qed.

(** ** The section registry *)

Lemma emplace_lookup k v (m : gmap axlf_section_kind (list byte)) k' :
  emplace k v m !! k' =
  match m !! k' with
  | Some w => Some w
  | None => if bool_decide (k' = k) then Some v else None
  end.
Proof.
  unfold emplace. destruct (m !! k) as [w|] eqn:Hk.
  - destruct (m !! k') eqn:Hk'; [done|].
    case_bool_decide; [congruence | done].
  - case_bool_decide as Heq.
    + subst k'. rewrite Hk. apply lookup_insert_eq.
    + rewrite lookup_insert_ne by congruence. by destruct (m !! k').
Qed.

Lemma bool_decide_cons_ne (k kind : axlf_section_kind) l :
  k <> kind -> bool_decide (k ∈ kind :: l) = bool_decide (k ∈ l).
Proof.
  intros Hne. apply bool_decide_ext. rewrite elem_of_cons. tauto.
Qed.

(** The loop of [register_axlf] over any list of kinds: it returns, keeps
    the entries that the map has, and adds the sections of [top] for the
    kinds of the list. *)
Lemma for_each_register_kind top l : forall d,
  exists d',
    for_each l (register_kind top) d = (Ret tt, d')
    /\ m_device_id d' = m_device_id d
    /\ m_xclbin_uuid d' = m_xclbin_uuid d
    /\ forall k,
         m_axlf_sections d' !! k =
         match m_axlf_sections d !! k with
         | Some w => Some w
         | None =>
             if bool_decide (k ∈ l)
             then section_data top <$> xclbin_get_axlf_section top k
             else None
         end.
Proof.
  induction l as [|kind l IH]; intros d.
  - exists d. repeat split. intros k. by destruct (m_axlf_sections d !! k).
  - cbn [for_each]. unfold mbind.
    unfold register_kind at 1.
    destruct (xclbin_get_axlf_section top kind) as [hdr|] eqn:Hhdr.
    + cbn [mmodify].
      destruct (IH (set_axlf_sections
                      (emplace kind (section_data top hdr) (m_axlf_sections d)) d))
        as (d' & Hrun & Hid & Huu & Hlk).
      exists d'. split; [exact Hrun|]. split; [exact Hid|]. split; [exact Huu|].
      intros k. rewrite Hlk. cbn [set_axlf_sections m_axlf_sections].
      rewrite emplace_lookup.
      destruct (m_axlf_sections d !! k); [done|].
      case_bool_decide as Hk.
      * subst k. rewrite bool_decide_eq_true_2 by (apply elem_of_cons; auto).
        by rewrite Hhdr.
      * by rewrite (bool_decide_cons_ne k kind l).
    + cbn [mret].
      destruct (IH d) as (d' & Hrun & Hid & Huu & Hlk).
      exists d'. split; [exact Hrun|]. split; [exact Hid|]. split; [exact Huu|].
      intros k. rewrite Hlk.
      destruct (m_axlf_sections d !! k); [done|].
      destruct (decide (k = kind)) as [->|Hne].
      * rewrite (bool_decide_eq_true_2 (kind ∈ kind :: l))
          by (apply elem_of_cons; auto).
        rewrite Hhdr. by case_bool_decide.
      * by rewrite (bool_decide_cons_ne k kind l).
Qed.

(** [register_axlf] returns; afterwards the uuid is the one of the header
    and the map holds the sections of [top] of the five kinds, and nothing
    else. *)
Lemma register_axlf_run top d :
  exists d',
    register_axlf top d = (Ret tt, d')
    /\ m_device_id d' = m_device_id d
    /\ m_xclbin_uuid d' = uuid_of_xuid (m_header_uuid top)
    /\ forall k,
         m_axlf_sections d' !! k =
         if bool_decide (k ∈ kinds)
         then section_data top <$> xclbin_get_axlf_section top k
         else None.
Proof.
  unfold register_axlf, mbind, mmodify.
  destruct (for_each_register_kind top kinds
              (set_xclbin_uuid (uuid_of_xuid (m_header_uuid top))
                 (set_axlf_sections ∅ d)))
    as (d' & Hrun & Hid & Huu & Hlk).
  exists d'. split; [exact Hrun|]. split; [exact Hid|]. split; [exact Huu|].
  intros k. rewrite Hlk. cbn. by rewrite lookup_empty.
Qed.

Lemma read_range_length mem first n : length (read_range mem first n) = n.
Proof. unfold read_range. by rewrite length_map, length_seq. Qed.

Lemma read_range_lookup mem first n i :
  (i < n)%nat -> read_range mem first n !! i = Some (mem (first + i)%nat).
Proof.
  intros Hi. unfold read_range.
  rewrite list_lookup_fmap, lookup_seq_lt by done. done.
Qed.

(** [get_axlf_section] is a [const] member: the device is as before. *)
Lemma get_axlf_section_state section id d :
  snd (get_axlf_section section id d) = d.
Proof.
  unfold get_axlf_section, mbind, mget.
  destruct (uuid_bool id && uuid_neq id (m_xclbin_uuid d)); [done|].
  by destruct (m_axlf_sections d !! section).
Qed.

Lemma get_axlf_section_mismatch section id d :
  uuid_bool id && uuid_neq id (m_xclbin_uuid d) = true ->
  get_axlf_section section id d = (Throw (runtime_error "xclbin id mismatch"), d).
Proof. intros H. unfold get_axlf_section, mbind, mget. by rewrite H. Qed.

Lemma get_axlf_section_match section id d :
  uuid_bool id && uuid_neq id (m_xclbin_uuid d) = false ->
  get_axlf_section section id d =
  (Ret match m_axlf_sections d !! section with
       | Some v => (vector_data v, vector_size v)
       | None => (nullptr, 0)
       end, d).
Proof.
  intros H. unfold get_axlf_section, mbind, mget. rewrite H.
  by destruct (m_axlf_sections d !! section).
Qed.

(** Membership in a list that is written out. *)
Ltac is_a_kind :=
  repeat first [by apply list_elem_of_here | apply list_elem_of_further].

Ltac not_a_kind :=
  let H := fresh in
  intros H;
  repeat (apply elem_of_cons in H as [H|H]; [discriminate H|]);
  by apply elem_of_nil in H.

(** ** The id check of [get_axlf_section] *)

(** C2.  For every device and every section kind, [get_axlf_section]
    throws if and only if the id given is non-null and differs from the
    uuid of the device, which is the uuid of the header of the container
    that [register_axlf] registered last.  The exception is
    [std::runtime_error] with the text [xclbin id mismatch]; the device is
    the same after the call, whether it throws or not; and without a
    mismatch the call returns. *)
Theorem get_axlf_section_throws_iff_mismatch
    (section : axlf_section_kind) (xclbin_id : uuid) (d : device) :
  let mismatch := uuid_bool xclbin_id = true /\ xclbin_id <> m_xclbin_uuid d in
  ((exists e, fst (get_axlf_section section xclbin_id d) = Throw e) <-> mismatch)
  /\ (get_axlf_section section xclbin_id d
       = (Throw (runtime_error "xclbin id mismatch"), d) <-> mismatch)
  /\ snd (get_axlf_section section xclbin_id d) = d
  /\ ((exists r, fst (get_axlf_section section xclbin_id d) = Ret r) <-> ~ mismatch)
  /\ (forall top d0,
        fst (register_axlf top d0) = Ret tt
        /\ m_xclbin_uuid (snd (register_axlf top d0))
           = uuid_of_xuid (m_header_uuid top)).
Proof.
  intros mismatch. subst mismatch. rewrite <- id_check_true.
  destruct (uuid_bool xclbin_id && uuid_neq xclbin_id (m_xclbin_uuid d)) eqn:Hchk.
  - rewrite (get_axlf_section_mismatch _ _ _ Hchk). cbn [fst snd].
    repeat split; eauto.
    + intros [r Hr]. discriminate.
    + intros Hn. by destruct Hn.
    + destruct (register_axlf_run top d0) as (d' & -> & _). done.
    + destruct (register_axlf_run top d0) as (d' & -> & _ & Huu & _). done.
  - rewrite (get_axlf_section_match _ _ _ Hchk). cbn [fst snd].
    repeat split; eauto; try discriminate.
    + intros [e He]. discriminate.
    + destruct (register_axlf_run top d0) as (d' & -> & _). done.
    + destruct (register_axlf_run top d0) as (d' & -> & _ & Huu & _). done.
Qed.

(** On the sample device, an id of sixteen 0x01 bytes is refused and the
    device is untouched. *)
Lemma get_axlf_section_throws_iff_mismatch_witness :
  get_axlf_section EMBEDDED_METADATA (mk_uuid (repeat x01 16)) sample_device
  = (Throw (runtime_error "xclbin id mismatch"), sample_device).
Proof.
  apply (get_axlf_section_throws_iff_mismatch
           EMBEDDED_METADATA (mk_uuid (repeat x01 16)) sample_device).
  split; [reflexivity | discriminate].
Defined.

(** ** Missing sections *)

(** [get_axlf_section_or_error] without an id mismatch: the pair of a
    section that holds bytes, an exception otherwise. *)
Lemma get_axlf_section_or_error_match section id d :
  uuid_bool id && uuid_neq id (m_xclbin_uuid d) = false ->
  get_axlf_section_or_error section id d =
  match m_axlf_sections d !! section with
  | Some (b :: v) => (Ret (vector_data (b :: v), vector_size (b :: v)), d)
  | _ => (Throw (runtime_error "no such xclbin section"), d)
  end.
Proof.
  intros H. unfold get_axlf_section_or_error, mbind.
  rewrite (get_axlf_section_match _ _ _ H).
  by destruct (m_axlf_sections d !! section) as [[|b v]|].
Qed.

Lemma get_axlf_section_or_error_mismatch section id d :
  uuid_bool id && uuid_neq id (m_xclbin_uuid d) = true ->
  get_axlf_section_or_error section id d =
  (Throw (runtime_error "xclbin id mismatch"), d).
Proof.
  intros H. unfold get_axlf_section_or_error, mbind.
  by rewrite (get_axlf_section_mismatch _ _ _ H).
Qed.

(** C3, as the code has it.  [get_axlf_section_or_error] returns the
    stored pair of pointer and size exactly when the section is registered
    with at least one byte and the id is null or matches; when the section
    is absent it throws [std::runtime_error], and so it does, without an id
    mismatch, for a section that is registered with no byte: the data
    pointer of its vector is null, which is how the function recognises a
    missing section.  The [get_ert_slots] without arguments throws
    [std::runtime_error] when there is no EMBEDDED_METADATA section, for
    any slot size, queue size and xml parsers. *)
Theorem get_axlf_section_or_error_missing
    (section : axlf_section_kind) (xclbin_id : uuid) (d : device) :
  let mismatch := uuid_bool xclbin_id = true /\ xclbin_id <> m_xclbin_uuid d in
  (forall r,
     get_axlf_section_or_error section xclbin_id d = (Ret r, d)
     <-> exists v, m_axlf_sections d !! section = Some v
                   /\ v <> []
                   /\ ~ mismatch
                   /\ r = (vector_data v, vector_size v))
  /\ (m_axlf_sections d !! section = None ->
      exists what,
        get_axlf_section_or_error section xclbin_id d
        = (Throw (runtime_error what), d))
  /\ (m_axlf_sections d !! section = Some [] -> ~ mismatch ->
      get_axlf_section_or_error section xclbin_id d
      = (Throw (runtime_error "no such xclbin section"), d))
  /\ (forall cq slotsize cus max_cu,
        m_axlf_sections d !! EMBEDDED_METADATA = None ->
        get_ert_slots_xclbin cq slotsize cus max_cu d
        = (Throw (runtime_error "No xml metadata in xclbin"), d)).
Proof.
  intros mismatch.
  destruct (uuid_bool xclbin_id && uuid_neq xclbin_id (m_xclbin_uuid d)) eqn:Hchk.
  - assert (Hm : mismatch) by (by apply id_check_true).
    rewrite (get_axlf_section_or_error_mismatch _ _ _ Hchk).
    split; [|split; [|split]].
    + intros r. split; [discriminate|].
      intros (v & _ & _ & Hn & _). by destruct Hn.
    + eauto.
    + intros _ Hn. by destruct Hn.
    + intros cq slotsize cus max_cu Habs.
      unfold get_ert_slots_xclbin, mbind.
      rewrite get_axlf_section_match by reflexivity. by rewrite Habs.
  - assert (Hm : ~ mismatch).
    { intros Hm%id_check_true. congruence. }
    rewrite (get_axlf_section_or_error_match _ _ _ Hchk).
    split; [|split; [|split]].
    + intros r. destruct (m_axlf_sections d !! section) as [[|b v]|].
      * split; [discriminate|]. intros (v & [= <-] & Hne & _). by destruct Hne.
      * split.
        -- intros [= <-]. exists (b :: v). repeat split; auto; discriminate.
        -- intros (w & [= <-] & _ & _ & ->). done.
      * split; [discriminate|]. intros (v & Hv & _). discriminate.
    + intros ->. eauto.
    + intros -> _. done.
    + intros cq slotsize cus max_cu Habs.
      unfold get_ert_slots_xclbin, mbind.
      rewrite get_axlf_section_match by reflexivity. by rewrite Habs.
Qed.

(** The xml metadata of the sample device is returned for the uuid of the
    sample container. *)
Lemma get_axlf_section_or_error_missing_witness :
  get_axlf_section_or_error EMBEDDED_METADATA (mk_uuid sample_xuid) sample_device
  = (Ret (Some [x3c; x78; x6d; x6c; x3e], 5), sample_device).
Proof.
  apply (get_axlf_section_or_error_missing
           EMBEDDED_METADATA (mk_uuid sample_xuid) sample_device).
  exists [x3c; x78; x6d; x6c; x3e].
  split; [reflexivity|]. split; [discriminate|].
  split; [|reflexivity].
  intros [_ Hne]. apply Hne. reflexivity.
Defined.

(** C3 as the specification words it fails on the sample device: its IP
    layout is registered, with no byte, the null id passes the check, and
    yet the stored pair is not returned; the call throws. *)
Lemma get_axlf_section_or_error_empty_section :
  m_axlf_sections sample_device !! IP_LAYOUT = Some []
  /\ uuid_bool uuid_nil = false
  /\ get_axlf_section_or_error IP_LAYOUT uuid_nil sample_device
     = (Throw (runtime_error "no such xclbin section"), sample_device)
  /\ ~ (forall v,
          m_axlf_sections sample_device !! IP_LAYOUT = Some v ->
          get_axlf_section_or_error IP_LAYOUT uuid_nil sample_device
          = (Ret (vector_data v, vector_size v), sample_device)).
Proof.
  split; [reflexivity|]. split; [reflexivity|]. split; [reflexivity|].
  intros H. specialize (H [] eq_refl). discriminate H.
Qed.

(** ** Registration *)

(** C5.  [register_axlf] returns, and replaces what the device held: the
    uuid is the one of the header of [top]; each of EMBEDDED_METADATA,
    AIE_METADATA, IP_LAYOUT, CONNECTIVITY and MEM_TOPOLOGY is in the map
    exactly when [top] has a section of the kind, and the bytes stored are
    the [m_sectionSize] bytes of [top] from [m_sectionOffset] on; a kind
    that [top] lacks, and any kind other than these five, is not in the
    map whatever the device held before, and [get_axlf_section] gives the
    null pointer and size 0 for it. *)
Theorem register_axlf_replaces_sections (top : axlf) (d : device) :
  exists d',
    register_axlf top d = (Ret tt, d')
    /\ m_xclbin_uuid d' = uuid_of_xuid (m_header_uuid top)
    /\ (forall kind hdr,
          kind ∈ [EMBEDDED_METADATA; AIE_METADATA; IP_LAYOUT; CONNECTIVITY;
                  MEM_TOPOLOGY] ->
          xclbin_get_axlf_section top kind = Some hdr ->
          exists data,
            m_axlf_sections d' !! kind = Some data
            /\ data = read_range (axlf_mem top) (m_sectionOffset hdr)
                        (m_sectionSize hdr)
            /\ length data = m_sectionSize hdr
            /\ forall i, (i < m_sectionSize hdr)%nat ->
                 data !! i = Some (axlf_mem top (m_sectionOffset hdr + i)%nat))
    /\ (forall kind,
          kind ∈ [EMBEDDED_METADATA; AIE_METADATA; IP_LAYOUT; CONNECTIVITY;
                  MEM_TOPOLOGY] ->
          (is_Some (m_axlf_sections d' !! kind)
           <-> is_Some (xclbin_get_axlf_section top kind)))
    /\ (forall kind,
          kind ∉ [EMBEDDED_METADATA; AIE_METADATA; IP_LAYOUT; CONNECTIVITY;
                  MEM_TOPOLOGY]
          \/ xclbin_get_axlf_section top kind = None ->
          m_axlf_sections d' !! kind = None
          /\ forall xclbin_id r,
               fst (get_axlf_section kind xclbin_id d') = Ret r ->
               r = (nullptr, 0)).
Proof.
  destruct (register_axlf_run top d) as (d' & Hrun & _ & Huu & Hlk).
  exists d'. split; [exact Hrun|]. split; [exact Huu|].
  split; [|split].
  - intros kind hdr Hin Hhdr. change (kind ∈ kinds) in Hin.
    exists (section_data top hdr).
    rewrite Hlk, bool_decide_eq_true_2, Hhdr by done.
    split; [done|]. split; [done|]. split.
    + apply read_range_length.
    + intros i Hi. by apply read_range_lookup.
  - intros kind Hin. change (kind ∈ kinds) in Hin.
    rewrite Hlk, bool_decide_eq_true_2 by done.
    by rewrite fmap_is_Some.
  - intros kind Hk.
    assert (Hnone : m_axlf_sections d' !! kind = None).
    { rewrite Hlk. case_bool_decide as Hin; [|done].
      destruct Hk as [Hk | ->]; [by destruct Hk | done]. }
    split; [exact Hnone|].
    intros id r.
    destruct (uuid_bool id && uuid_neq id (m_xclbin_uuid d')) eqn:Hchk.
    + by rewrite (get_axlf_section_mismatch _ _ _ Hchk).
    + rewrite (get_axlf_section_match _ _ _ Hchk), Hnone. cbn. congruence.
Qed.

(** Registering the full container on a device that holds a stale
    connectivity section: each of the five kinds holds the two bytes of
    its section of the container, the stale bytes are replaced, and the
    section of the sixth kind is not kept. *)
Lemma register_axlf_replaces_sections_witness :
  let d' := snd (register_axlf full_top stale_device) in
  m_axlf_sections d' !! EMBEDDED_METADATA = Some [xa0; xa1]
  /\ m_axlf_sections d' !! AIE_METADATA = Some [xa2; xa3]
  /\ m_axlf_sections d' !! IP_LAYOUT = Some [xa4; xa5]
  /\ m_axlf_sections d' !! CONNECTIVITY = Some [xa6; xa7]
  /\ m_axlf_sections d' !! MEM_TOPOLOGY = Some [xa8; xa9]
  /\ m_axlf_sections d' !! OTHER_KIND 1 = None
  /\ m_xclbin_uuid d' = mk_uuid (repeat x33 16).
Proof.
  destruct (register_axlf_replaces_sections full_top stale_device)
    as (d' & Hrun & Huu & Hstored & _ & Hgone).
  rewrite Hrun. cbn [snd].
  assert (Hkind : forall kind hdr,
            kind ∈ [EMBEDDED_METADATA; AIE_METADATA; IP_LAYOUT; CONNECTIVITY;
                    MEM_TOPOLOGY] ->
            xclbin_get_axlf_section full_top kind = Some hdr ->
            m_axlf_sections d' !! kind
            = Some (read_range full_mem (m_sectionOffset hdr)
                      (m_sectionSize hdr))).
  { intros kind hdr Hin Hhdr.
    destruct (Hstored kind hdr Hin Hhdr) as (data & Hlk & Hdata & _).
    rewrite Hlk, Hdata. reflexivity. }
  split; [|split; [|split; [|split; [|split; [|split]]]]].
  - apply (Hkind EMBEDDED_METADATA
             {| m_sectionKind := EMBEDDED_METADATA;
                m_sectionOffset := 0; m_sectionSize := 2 |});
      [is_a_kind | reflexivity].
  - apply (Hkind AIE_METADATA
             {| m_sectionKind := AIE_METADATA;
                m_sectionOffset := 2; m_sectionSize := 2 |});
      [is_a_kind | reflexivity].
  - apply (Hkind IP_LAYOUT
             {| m_sectionKind := IP_LAYOUT;
                m_sectionOffset := 4; m_sectionSize := 2 |});
      [is_a_kind | reflexivity].
  - apply (Hkind CONNECTIVITY
             {| m_sectionKind := CONNECTIVITY;
                m_sectionOffset := 6; m_sectionSize := 2 |});
      [is_a_kind | reflexivity].
  - apply (Hkind MEM_TOPOLOGY
             {| m_sectionKind := MEM_TOPOLOGY;
                m_sectionOffset := 8; m_sectionSize := 2 |});
      [is_a_kind | reflexivity].
  - apply (Hgone (OTHER_KIND 1)). left. not_a_kind.
  - exact Huu.
Defined.

(** ** Command-queue slots *)

(** The slot count asked for lies between [min_slots] and [max_slots]. *)
Lemma wanted_slots_range num_cus :
  let slots := Z.min max_slots (Z.max min_slots (Int.to_u64 (num_cus * 2 + 1))) in
  16 <= slots <= 128.
Proof. unfold max_slots, min_slots. lia. Qed.

(** With a queue of at least 128 * 128 bytes, the slot size is positive and
    the queue holds between 1 and 128 slots of that size. *)
Lemma slot_size_bounds cq slots max_cu :
  16384 <= cq -> 16 <= slots <= 128 -> 0 <= max_cu <= cq ->
  let size := Z.max (cq / slots) max_cu in
  0 < size /\ 1 <= cq / size <= 128.
Proof.
  intros Hcq Hs Hm size.
  assert (Hq : 128 <= cq / slots) by (apply Z.div_le_lower_bound; nia).
  assert (Hrem : cq < slots * (cq / slots) + slots).
  { pose proof (Z.mod_pos_bound cq slots ltac:(lia)).
    pose proof (Z.div_mod cq slots ltac:(lia)). lia. }
  assert (Hle : cq / slots <= cq) by (apply Z.div_le_upper_bound; nia).
  assert (Hsz : cq / slots <= size <= cq) by (unfold size; lia).
  split; [lia|]. split.
  - apply Z.div_le_lower_bound; lia.
  - assert (cq / size < 129); [|lia].
    apply Z.div_lt_upper_bound; nia.
Qed.

(** Rounding up to the next status register leaves a count between 1 and
    128 that is a multiple of 32 when it is above 16. *)
Lemma round_slots_bounds slots :
  1 <= slots <= 128 ->
  let rounded :=
    if slots >? 16 then Int.to_u64 (((slots - 1) / 32 + 1) * 32) else slots in
  1 <= rounded <= 128 /\ (rounded > 16 -> rounded mod 32 = 0).
Proof.
  intros Hs. cbv zeta.
  destruct (Z.gtb_spec slots 16) as [Hgt|Hle]; [|lia].
  assert (Hidx : 0 <= (slots - 1) / 32 <= 3).
  { split; [apply Z.div_pos; lia|].
    assert ((slots - 1) / 32 < 4); [|lia].
    apply Z.div_lt_upper_bound; lia. }
  rewrite to_u64_small by (unfold Int.UINT64_MOD; lia).
  split; [lia|]. intros _. apply Z.mod_mul. lia.
Qed.

Section ErtSlotsFacts.

Variable ERT_CQ_SIZE : Z.
Variable get_ert_slotsize : Z.
Variable get_cus : ptr -> Z -> outcome (list Z).
Variable get_max_cu_size : ptr -> Z -> outcome Z.

Local Abbreviation ert_slots :=
  (get_ert_slots ERT_CQ_SIZE get_ert_slotsize get_cus get_max_cu_size).

(** C4.  With a slot size from xrt.ini that is not zero,
    [get_ert_slots] throws [std::runtime_error] with the text
    [invalid slot size '...' in xrt.ini] if and only if
    [ERT_CQ_SIZE / size] exceeds 128, and otherwise returns the pair of
    [ERT_CQ_SIZE / size] and [size].  The parsers of the xml metadata are
    arbitrary here and the result does not mention them: they are not
    called. *)
Theorem get_ert_slots_ini (xml_data : ptr) (xml_size : Z) (d : device) :
  0 < get_ert_slotsize ->
  ((exists e, fst (ert_slots xml_data xml_size d) = Throw e)
   <-> ERT_CQ_SIZE / get_ert_slotsize > 128)
  /\ (ERT_CQ_SIZE / get_ert_slotsize > 128 ->
      ert_slots xml_data xml_size d
      = (Throw (runtime_error
                  ("invalid slot size '" +:+ to_string get_ert_slotsize
                   +:+ "' in xrt.ini")), d))
  /\ (ERT_CQ_SIZE / get_ert_slotsize <= 128 ->
      ert_slots xml_data xml_size d
      = (Ret (ERT_CQ_SIZE / get_ert_slotsize, get_ert_slotsize), d)).
Proof.
  intros Hs. unfold get_ert_slots, mbind, mlift.
  destruct (Z.eqb_spec get_ert_slotsize 0) as [Hz|_]; [lia|].
  cbn [negb]. rewrite udiv_nonzero by lia.
  unfold max_slots.
  destruct (Z.gtb_spec (ERT_CQ_SIZE / get_ert_slotsize) 128) as [Hgt|Hle];
    cbn [fst mthrow mret].
  - split; [|split].
    + split; [lia | eauto].
    + done.
    + lia.
  - split; [|split].
    + split; [intros [e He]; discriminate | lia].
    + lia.
    + done.
Qed.

(** C8.  With no slot size in xrt.ini, a queue size of at least
    128 * 128, and parsers that give the compute units and a largest
    compute unit no bigger than the queue,
    [get_ert_slots] returns a pair: no division has a zero divisor.  The
    size is [ERT_CQ_SIZE / slots], the slots are between 1 and 128, and
    above 16 they are a multiple of 32. *)
Theorem get_ert_slots_default (xml_data : ptr) (xml_size : Z) (d : device)
    (cus : list Z) (max_cu : Z) :
  get_ert_slotsize = 0 ->
  16384 <= ERT_CQ_SIZE ->
  get_cus xml_data xml_size = Ret cus ->
  get_max_cu_size xml_data xml_size = Ret max_cu ->
  0 <= max_cu <= ERT_CQ_SIZE ->
  exists slots size,
    ert_slots xml_data xml_size d = (Ret (slots, size), d)
    /\ size = ERT_CQ_SIZE / slots
    /\ 1 <= slots <= 128
    /\ (slots > 16 -> slots mod 32 = 0).
Proof.
  intros Hini Hcq Hcus Hmax Hmax_cu.
  unfold get_ert_slots, mbind, mlift.
  rewrite Hini, Hcus, Hmax. cbn [Z.eqb negb].
  pose proof (wanted_slots_range (Z.of_nat (length cus))) as Hwant.
  cbv zeta in Hwant.
  set (wanted := Z.min max_slots
                   (Z.max min_slots
                      (Int.to_u64 (Z.of_nat (length cus) * 2 + 1)))) in *.
  rewrite (udiv_nonzero _ wanted) by lia.
  destruct (slot_size_bounds ERT_CQ_SIZE wanted max_cu) as [Hsize Hfit];
    [lia | lia | lia |].
  set (size := Z.max (ERT_CQ_SIZE / wanted) max_cu) in *.
  rewrite (udiv_nonzero _ size) by lia.
  destruct (round_slots_bounds (ERT_CQ_SIZE / size) Hfit) as [Hround Hmul].
  set (slots := if ERT_CQ_SIZE / size >? 16
                then Int.to_u64 (((ERT_CQ_SIZE / size - 1) / 32 + 1) * 32)
                else ERT_CQ_SIZE / size) in *.
  rewrite (udiv_nonzero _ slots) by lia.
  exists slots, (ERT_CQ_SIZE / slots). done.
Qed.

End ErtSlotsFacts.

(** A slot size of 4096 bytes in xrt.ini and a queue of 64 KiB: 16 slots,
    whatever the parsers do. *)
Lemma get_ert_slots_ini_witness :
  get_ert_slots 65536 4096
    (fun _ _ => Throw (other_exception "xml")) (fun _ _ => Undefined)
    (Some [x3c]) 1 sample_device
  = (Ret (16, 4096), sample_device).
Proof.
  apply (get_ert_slots_ini 65536 4096
           (fun _ _ => Throw (other_exception "xml")) (fun _ _ => Undefined)
           (Some [x3c]) 1 sample_device); [lia|].
  vm_compute. discriminate.
Defined.

(** Sixteen compute units of at most 100 bytes and a queue of 64 KiB. *)
Lemma get_ert_slots_default_witness :
  exists slots size,
    get_ert_slots 65536 0
      (fun _ _ => Ret (repeat 1 16)) (fun _ _ => Ret 100)
      (Some [x3c]) 1 sample_device
    = (Ret (slots, size), sample_device)
    /\ size = 65536 / slots
    /\ 1 <= slots <= 128
    /\ (slots > 16 -> slots mod 32 = 0).
Proof.
  apply (get_ert_slots_default 65536 0
           (fun _ _ => Ret (repeat 1 16)) (fun _ _ => Ret 100)
           (Some [x3c]) 1 sample_device (repeat 1 16) 100);
    [reflexivity | lia | reflexivity | reflexivity | lia].
Defined.

(** ** Formatting *)

Section FormatFacts.

Variable type_name : type_id -> string.

(** An [int] is none of the types that the two formatters test for. *)
Lemma format_primative_int v :
  format_primative type_name (any_int v)
  = Throw (xrt_error
             ("Unsupported 'any' typeid: '" +:+ type_name ty_int +:+ "'")).
Proof. reflexivity. Qed.

Lemma format_hex_int v :
  format_hex type_name (any_int v) = format_primative type_name (any_int v).
Proof. reflexivity. Qed.

(** C9.  For a [uint64_t], [format_hex_base2_shiftup30] returns [0x]
    and the hexadecimal digits of the value times 2^30 modulo 2^64.  For
    a [uint16_t] and for a [uint8_t] it throws [xrt_core::error] whatever
    the value: the shifted value is an [int], which [format_hex] hands to
    [format_primative] and [format_primative] refuses. *)
Theorem format_hex_base2_shiftup30_types (v : Z) :
  format_hex_base2_shiftup30 type_name (any_uint64 v)
  = Ret ("0x" +:+ hex ((v * 2 ^ 30) mod 2 ^ 64))
  /\ format_hex_base2_shiftup30 type_name (any_uint16 v)
     = Throw (xrt_error
                ("Unsupported 'any' typeid: '" +:+ type_name ty_int +:+ "'"))
  /\ format_hex_base2_shiftup30 type_name (any_uint8 v)
     = Throw (xrt_error
                ("Unsupported 'any' typeid: '" +:+ type_name ty_int +:+ "'"))
  /\ (forall i,
        format_hex type_name (any_int i) = format_primative type_name (any_int i)
        /\ exists what, format_primative type_name (any_int i)
                        = Throw (xrt_error what)).
Proof.
  split; [|split; [|split]].
  - cbn [format_hex_base2_shiftup30 format_hex].
    unfold Int.to_u64, Int.UINT64_MOD.
    by rewrite Z.shiftl_mul_pow2 by lia.
  - reflexivity.
  - reflexivity.
  - intros i. split; [reflexivity|]. rewrite format_primative_int. eauto.
Qed.

End FormatFacts.

(** ** The uuid query *)

Section QueryFacts.

Variable device_query_xclbin_uuid : device -> outcome string.
Variable uuid_of_string : string -> uuid.

Local Abbreviation xclbin_uuid :=
  (get_xclbin_uuid device_query_xclbin_uuid uuid_of_string).

(** C10.  [get_xclbin_uuid] never ends in [query::no_such_key]: when the
    query throws it, the default uuid is returned; when the query
    returns a string, the uuid made from the string is returned.  The
    device is the same afterwards. *)
Theorem get_xclbin_uuid_no_such_key (d : device) :
  fst (xclbin_uuid d) <> Throw no_such_key
  /\ (device_query_xclbin_uuid d = Throw no_such_key ->
      xclbin_uuid d = (Ret uuid_nil, d))
  /\ (forall uuid_str,
        device_query_xclbin_uuid d = Ret uuid_str ->
        xclbin_uuid d = (Ret (uuid_of_string uuid_str), d)).
Proof.
  unfold get_xclbin_uuid, catch_no_such_key, mbind, mget, mlift, mret.
  destruct (device_query_xclbin_uuid d) as [uuid_str| [ | | | ] |];
    cbn; repeat split; try discriminate; congruence.
Qed.

End QueryFacts.

(** A shim without the key, as in emulation. *)
Lemma get_xclbin_uuid_no_such_key_witness :
  get_xclbin_uuid (fun _ => Throw no_such_key) (fun _ => mk_uuid sample_xuid)
    sample_device
  = (Ret uuid_nil, sample_device).
Proof.
  apply (get_xclbin_uuid_no_such_key
           (fun _ => Throw no_such_key) (fun _ => mk_uuid sample_xuid)
           sample_device).
  reflexivity.
Defined.

(** ** Binary attributes *)

Lemma sizeof_sect_range lay sect : 0 <= sizeof_sect lay sect < Int.UINT64_MOD.
Proof.
  destruct sect as [s|]; cbn [sizeof_sect].
  - apply to_u64_range.
  - unfold Int.UINT64_MOD. lia.
Qed.

(** The common body of the readers, for an offset that is not negative:
    nothing is read at or past the end; before the end, the smaller of
    [count] and the bytes left is cut to 32 bits, and so many bytes are
    copied. *)
Lemma read_sect_spec size sect buffer offset count :
  0 <= size < Int.UINT64_MOD ->
  0 <= offset <= Int.SSIZE_MAX ->
  read_sect size sect buffer offset count =
  if offset >=? size then (0, buffer)
  else
    let n := Int.to_u32 (Z.min count (size - offset)) in
    (n, memcpy buffer (mem_of sect) offset n).
Proof.
  intros Hsize Hoff. unfold read_sect.
  rewrite (to_u64_small offset)
    by (unfold Int.UINT64_MOD, Int.SSIZE_MAX in *; lia).
  destruct (Z.geb_spec offset size) as [Hge|Hlt]; [done|].
  rewrite (to_u64_small (size - offset)) by lia.
  cbv zeta.
  destruct (Z.ltb_spec count (size - offset)) as [Hc|Hc].
  - by rewrite Z.min_l by lia.
  - by rewrite Z.min_r by lia.
Qed.

Lemma memcpy_inside dst src offset n i :
  0 <= i < n -> memcpy dst src offset n i = src (offset + i).
Proof.
  intros Hi. unfold memcpy.
  destruct (Z.leb_spec 0 i); [|lia]. destruct (Z.ltb_spec i n); [done|lia].
Qed.

Lemma memcpy_outside dst src offset n i :
  ~ 0 <= i < n -> memcpy dst src offset n i = dst i.
Proof.
  intros Hi. unfold memcpy.
  destruct (Z.leb_spec 0 i); [|done]. destruct (Z.ltb_spec i n); [lia|done].
Qed.

(** What a reader gives for a section of [size] bytes. *)
Lemma read_sect_post size sect buffer offset count :
  0 <= size < Int.UINT64_MOD ->
  0 <= offset <= Int.SSIZE_MAX ->
  let r := read_sect size sect buffer offset count in
  (size <= offset -> r = (0, buffer))
  /\ (offset < size ->
      let n := Int.to_u32 (Z.min count (size - offset)) in
      fst r = n
      /\ (forall i, 0 <= i < n -> snd r i = mem_of sect (offset + i))
      /\ (forall i, ~ 0 <= i < n -> snd r i = buffer i)
      /\ (0 <= Z.min count (size - offset) < Int.UINT32_MOD ->
          n = Z.min count (size - offset))).
Proof.
  intros Hsize Hoff r. subst r. rewrite read_sect_spec by done.
  destruct (Z.geb_spec offset size) as [Hge|Hlt].
  - split; [done | lia].
  - split; [lia|]. intros _ n. cbn [fst snd].
    split; [done|]. split; [|split].
    + intros i Hi. by apply memcpy_inside.
    + intros i Hi. by apply memcpy_outside.
    + intros Hmin. by apply to_u32_small.
Qed.

(** The same for a count below 2^32: nothing is cut. *)
Lemma read_sect_post_small size sect buffer offset count :
  0 <= size < Int.UINT64_MOD ->
  0 <= offset <= Int.SSIZE_MAX ->
  0 <= count < Int.UINT32_MOD ->
  let r := read_sect size sect buffer offset count in
  (size <= offset -> r = (0, buffer))
  /\ (offset < size ->
      let n := Z.min count (size - offset) in
      fst r = n
      /\ (forall i, 0 <= i < n -> snd r i = mem_of sect (offset + i))
      /\ (forall i, ~ 0 <= i < n -> snd r i = buffer i)).
Proof.
  intros Hsize Hoff Hcount r. subst r. rewrite read_sect_spec by done.
  destruct (Z.geb_spec offset size) as [Hge|Hlt].
  - split; [done | lia].
  - split; [lia|]. intros _ n. subst n.
    rewrite to_u32_small by lia. cbn [fst snd].
    split; [done|]. split.
    + intros i Hi. by apply memcpy_inside.
    + intros i Hi. by apply memcpy_outside.
Qed.

Section DriverFacts.

Variables m_debug_ip_data m_ip_data m_connection m_mem_data : sect_layout.
Variable xocl_hot_reset : xocl_dev -> bool -> Z * xocl_dev.
Variable sysfs_create_group : attribute_group -> kernel -> Z * kernel.

(** The four readers for every count: a read at an offset that is not
    negative returns 0 and leaves the buffer alone when the offset is at or
    past the size of the section; otherwise it copies [n] bytes from byte
    [offset] of the section to the start of the buffer, leaves the rest of
    the buffer alone and returns [n], where [n] is the smaller of [count]
    and [size - offset] as the 32-bit variable [nread] holds it. *)
Lemma bin_attr_read_u32 (xdev : xocl_dev) (buffer : kmem) (offset count : Z) :
  0 <= offset <= Int.SSIZE_MAX ->
  Forall
    (fun '(read, size, sect) =>
       let r : Z * kmem := read xdev buffer offset count in
       (size <= offset -> r = (0, buffer))
       /\ (offset < size ->
           let n := Int.to_u32 (Z.min count (size - offset)) in
           fst r = n
           /\ (forall i, 0 <= i < n -> snd r i = mem_of sect (offset + i))
           /\ (forall i, ~ 0 <= i < n -> snd r i = buffer i)
           /\ (0 <= Z.min count (size - offset) < Int.UINT32_MOD ->
               n = Z.min count (size - offset))))
    [ (read_debug_ip_layout m_debug_ip_data,
       sizeof_sect m_debug_ip_data (debug_layout xdev), debug_layout xdev);
      (read_ip_layout m_ip_data,
       sizeof_sect m_ip_data (layout xdev), layout xdev);
      (read_connectivity m_connection,
       sizeof_sect m_connection (connectivity xdev), connectivity xdev);
      (read_mem_topology m_mem_data,
       sizeof_sect m_mem_data (topology xdev), topology xdev) ].
Proof.
  intros Hoff.
  repeat first [apply List.Forall_nil | apply List.Forall_cons].
  - exact (read_sect_post _ (debug_layout xdev) buffer offset count
             (sizeof_sect_range m_debug_ip_data (debug_layout xdev)) Hoff).
  - exact (read_sect_post _ (layout xdev) buffer offset count
             (sizeof_sect_range m_ip_data (layout xdev)) Hoff).
  - exact (read_sect_post _ (connectivity xdev) buffer offset count
             (sizeof_sect_range m_connection (connectivity xdev)) Hoff).
  - exact (read_sect_post _ (topology xdev) buffer offset count
             (sizeof_sect_range m_mem_data (topology xdev)) Hoff).
Qed.

(** C1.  For each of the four binary attributes (debug_ip_layout,
    ip_layout, connectivity, mem_topology), a read at byte offset
    [offset] with requested length [count], against a section whose size
    [sizeof_sect] computes from the [m_count] of its header, returns 0 and
    leaves the buffer alone when [offset >= size]; otherwise it copies
    exactly [min(count, size - offset)] bytes, from byte [offset] of the
    section on, to the start of the buffer, leaves the rest of the buffer
    alone, and returns that number.  The offset and the count are those
    that a read callback of sysfs gets: an offset that is not negative and
    a count below 2^32, the range of the variable [nread] (sysfs asks for
    a page at most). *)
Theorem bin_attr_read (xdev : xocl_dev) (buffer : kmem) (offset count : Z) :
  0 <= offset <= Int.SSIZE_MAX ->
  0 <= count < Int.UINT32_MOD ->
  Forall
    (fun '(read, size, sect) =>
       let r : Z * kmem := read xdev buffer offset count in
       (size <= offset -> r = (0, buffer))
       /\ (offset < size ->
           let n := Z.min count (size - offset) in
           fst r = n
           /\ (forall i, 0 <= i < n -> snd r i = mem_of sect (offset + i))
           /\ (forall i, ~ 0 <= i < n -> snd r i = buffer i)))
    [ (read_debug_ip_layout m_debug_ip_data,
       sizeof_sect m_debug_ip_data (debug_layout xdev), debug_layout xdev);
      (read_ip_layout m_ip_data,
       sizeof_sect m_ip_data (layout xdev), layout xdev);
      (read_connectivity m_connection,
       sizeof_sect m_connection (connectivity xdev), connectivity xdev);
      (read_mem_topology m_mem_data,
       sizeof_sect m_mem_data (topology xdev), topology xdev) ].
Proof.
  intros Hoff Hcount.
  repeat first [apply List.Forall_nil | apply List.Forall_cons].
  - exact (read_sect_post_small _ (debug_layout xdev) buffer offset count
             (sizeof_sect_range m_debug_ip_data (debug_layout xdev))
             Hoff Hcount).
  - exact (read_sect_post_small _ (layout xdev) buffer offset count
             (sizeof_sect_range m_ip_data (layout xdev)) Hoff Hcount).
  - exact (read_sect_post_small _ (connectivity xdev) buffer offset count
             (sizeof_sect_range m_connection (connectivity xdev))
             Hoff Hcount).
  - exact (read_sect_post_small _ (topology xdev) buffer offset count
             (sizeof_sect_range m_mem_data (topology xdev)) Hoff Hcount).
Qed.

Local Abbreviation attr_group :=
  (xocl_attr_group m_debug_ip_data m_ip_data m_connection m_mem_data
     xocl_hot_reset).

(** [reset_store] returns the count when the reset returns 0 and the
    value of the reset otherwise. *)
Lemma reset_store_result dev buf count :
  fst (reset_store xocl_hot_reset dev buf count) =
  if fst (xocl_hot_reset dev false) =? 0
  then Int.to_i64 count
  else fst (xocl_hot_reset dev false).
Proof.
  unfold reset_store. destruct (xocl_hot_reset dev false) as [ret dev'].
  cbn [fst]. by destruct (ret =? 0).
Qed.

(** C6.  The attribute group of the driver.  Its text attributes are, in
    this order, xclbinuuid, userbar, kdsstat, memstat, memstat_raw and
    user_pf, each with mode 0444, a [show] callback and no [store], and
    reset, with mode 0200, no [show] and [reset_store] as [store].  Its
    binary attributes are debug_ip_layout, ip_layout, connectivity and
    mem_topology, each with mode 0444, its reader and no [write].
    When the reset returns 0, [reset_store] returns the count of the
    write, converted to the [ssize_t] of its result: the count itself for
    every count up to [SSIZE_MAX], and no buffer is longer.  Otherwise it
    returns the error code of the reset. *)
Theorem xocl_attr_group_contents :
  map (fun a => (name (attr a), mode (attr a), show a)) (attrs attr_group)
  = [ ("xclbinuuid", octal [4; 4; 4], Some xclbinuuid_show);
      ("userbar", octal [4; 4; 4], Some userbar_show);
      ("kdsstat", octal [4; 4; 4], Some kdsstat_show);
      ("memstat", octal [4; 4; 4], Some memstat_show);
      ("memstat_raw", octal [4; 4; 4], Some memstat_raw_show);
      ("user_pf", octal [4; 4; 4], Some user_pf_show);
      ("reset", octal [2; 0; 0], None) ]
  /\ map store (attrs attr_group)
     = [ None; None; None; None; None; None;
         Some (reset_store xocl_hot_reset) ]
  /\ map (fun b => (name (battr b), mode (battr b), bwrite b, bsize b))
       (bin_attrs attr_group)
     = [ ("debug_ip_layout", octal [4; 4; 4], None, 0);
         ("ip_layout", octal [4; 4; 4], None, 0);
         ("connectivity", octal [4; 4; 4], None, 0);
         ("mem_topology", octal [4; 4; 4], None, 0) ]
  /\ map bread (bin_attrs attr_group)
     = [ Some (read_debug_ip_layout m_debug_ip_data);
         Some (read_ip_layout m_ip_data);
         Some (read_connectivity m_connection);
         Some (read_mem_topology m_mem_data) ]
  /\ (forall dev buf count,
        (fst (xocl_hot_reset dev false) = 0 ->
         fst (reset_store xocl_hot_reset dev buf count) = Int.to_i64 count
         /\ (0 <= count <= Int.SSIZE_MAX ->
             fst (reset_store xocl_hot_reset dev buf count) = count))
        /\ (fst (xocl_hot_reset dev false) <> 0 ->
            fst (reset_store xocl_hot_reset dev buf count)
            = fst (xocl_hot_reset dev false))).
Proof.
  do 4 (split; [reflexivity|]).
  intros dev buf count. rewrite reset_store_result.
  destruct (Z.eqb_spec (fst (xocl_hot_reset dev false)) 0) as [Hz|Hnz].
  - split; [|congruence]. intros _. split; [done|].
    intros Hc. apply to_i64_small. lia.
  - split; [congruence | done].
Qed.

(** C7.  [xocl_init_sysfs] returns what [sysfs_create_group] returned for
    the attribute group of the driver: 0 exactly when the creation
    returned 0, and then nothing is logged; a non-zero code is logged in
    one line and returned as it is. *)
Theorem xocl_init_sysfs_propagates (k : kernel) :
  let created := sysfs_create_group attr_group k in
  let r :=
    xocl_init_sysfs m_debug_ip_data m_ip_data m_connection m_mem_data
      xocl_hot_reset sysfs_create_group k in
  fst r = fst created
  /\ (fst r = 0 <-> fst created = 0)
  /\ (fst created = 0 -> snd r = snd created)
  /\ (fst created <> 0 ->
      snd r = xocl_err ("create xocl attrs failed: " +:+ to_string (fst created))
                (snd created)
      /\ klog (snd r)
         = klog (snd created)
           ++ ["create xocl attrs failed: " +:+ to_string (fst created)]).
Proof.
  intros created r. subst created r. unfold xocl_init_sysfs.
  destruct (sysfs_create_group attr_group k) as [ret k'].
  cbn [fst snd].
  destruct (Z.eqb_spec ret 0) as [->|Hne]; cbn [negb fst snd].
  - repeat split; auto; congruence.
  - repeat split; auto; congruence.
Qed.

End DriverFacts.

(** A read of 100 bytes at offset 4 of the 16 bytes of the small section:
    the 12 bytes that are left. *)
Lemma bin_attr_read_witness :
  fst (read_ip_layout narrow_layout small_xdev user_buffer 4 100) = 12
  /\ snd (read_ip_layout narrow_layout small_xdev user_buffer 4 100) 0 = x14
  /\ snd (read_ip_layout narrow_layout small_xdev user_buffer 4 100) 11 = x1f
  /\ snd (read_ip_layout narrow_layout small_xdev user_buffer 4 100) 12 = xee.
Proof.
  assert (Hoff : 0 <= 4 <= Int.SSIZE_MAX) by (unfold Int.SSIZE_MAX; lia).
  assert (Hcount : 0 <= 100 < Int.UINT32_MOD) by (unfold Int.UINT32_MOD; lia).
  pose proof (bin_attr_read narrow_layout narrow_layout narrow_layout
                narrow_layout small_xdev user_buffer 4 100 Hoff Hcount) as HF.
  apply List.Forall_inv_tail, List.Forall_inv in HF.
  destruct HF as [_ HF].
  destruct HF as (Hn & Hin & Hout); [reflexivity|].
  split; [exact Hn|]. split; [|split].
  - apply (Hin 0). vm_compute. split; [discriminate | reflexivity].
  - apply (Hin 11). vm_compute. split; [discriminate | reflexivity].
  - apply (Hout 12). vm_compute. intros [_ H]. discriminate H.
Defined.

(** Outside the range of sysfs the count is cut to 32 bits: the bare
    function, called with a count of 2^32 against a section of more than
    4 GiB, copies nothing and returns 0. *)
Example read_ip_layout_count_cut :
  let size := sizeof_sect wide_layout (layout huge_xdev) in
  let r := read_ip_layout wide_layout huge_xdev user_buffer 0 (2 ^ 32) in
  size = 5368709128
  /\ fst r = 0
  /\ snd r 0 = xee.
Proof. vm_compute. repeat split; discriminate. Qed.

(** A reset that succeeds on a write of 6 bytes. *)
Lemma xocl_attr_group_contents_witness :
  fst (reset_store (fun dev _ => (0, dev)) small_xdev user_buffer 6) = 6.
Proof.
  apply (xocl_attr_group_contents narrow_layout narrow_layout narrow_layout
           narrow_layout (fun dev _ => (0, dev))).
  - reflexivity.
  - unfold Int.SSIZE_MAX. lia.
Defined.

(** A creation that fails with -ENOMEM. *)
Lemma xocl_init_sysfs_propagates_witness :
  xocl_init_sysfs narrow_layout narrow_layout narrow_layout narrow_layout
    (fun dev _ => (0, dev)) failing_create_group empty_kernel
  = (-12, {| klog := ["create xocl attrs failed: -12"]; sysfs := [] |}).
Proof.
  pose proof (xocl_init_sysfs_propagates narrow_layout narrow_layout
                narrow_layout narrow_layout (fun dev _ => (0, dev))
                failing_create_group empty_kernel) as H.
  cbv zeta in H. destruct H as (Hret & _ & _ & Hlog).
  destruct Hlog as [Hst _]; [vm_compute; discriminate|].
  apply injective_projections; [exact Hret | exact Hst].
Defined.

(** * Further properties *)

(** ** Registering and looking up *)

Lemma device_eq (d1 d2 : device) :
  m_device_id d1 = m_device_id d2 ->
  m_xclbin_uuid d1 = m_xclbin_uuid d2 ->
  m_axlf_sections d1 = m_axlf_sections d2 ->
  d1 = d2.
Proof. destruct d1, d2. cbn. by intros -> -> ->. Qed.

(** What [register_axlf] leaves depends on the container and on the id of
    the device only. *)
Lemma register_axlf_state top d1 d2 :
  m_device_id d1 = m_device_id d2 ->
  snd (register_axlf top d1) = snd (register_axlf top d2).
Proof.
  intros Hid.
  destruct (register_axlf_run top d1) as (e1 & -> & Hid1 & Huu1 & Hlk1).
  destruct (register_axlf_run top d2) as (e2 & -> & Hid2 & Huu2 & Hlk2).
  cbn [snd]. apply device_eq; [congruence | congruence |].
  apply map_eq. intros k. by rewrite Hlk1, Hlk2.
Qed.

Lemma register_axlf_device_id top d :
  m_device_id (snd (register_axlf top d)) = m_device_id d.
Proof. by destruct (register_axlf_run top d) as (d' & -> & Hid & _). Qed.

(** X1.  A section that [register_axlf] stored is what [get_axlf_section]
    and [get_axlf_section_or_error] give back: for each of
    EMBEDDED_METADATA, AIE_METADATA, IP_LAYOUT, CONNECTIVITY and
    MEM_TOPOLOGY whose section in [top] has at least one byte, and an id
    that is null or the uuid of the header of [top], both return the
    pointer to the bytes of the section and their number, and leave the
    device alone. *)
Theorem register_axlf_then_get (top : axlf) (d : device)
    (kind : axlf_section_kind) (hdr : axlf_section_header) (xclbin_id : uuid) :
  kind ∈ [EMBEDDED_METADATA; AIE_METADATA; IP_LAYOUT; CONNECTIVITY;
          MEM_TOPOLOGY] ->
  xclbin_get_axlf_section top kind = Some hdr ->
  (0 < m_sectionSize hdr)%nat ->
  uuid_bool xclbin_id = false \/ xclbin_id = uuid_of_xuid (m_header_uuid top) ->
  let d' := snd (register_axlf top d) in
  get_axlf_section kind xclbin_id d'
  = (Ret (Some (section_data top hdr), Z.of_nat (m_sectionSize hdr)), d')
  /\ get_axlf_section_or_error kind xclbin_id d'
     = (Ret (Some (section_data top hdr), Z.of_nat (m_sectionSize hdr)), d').
Proof.
  intros Hin Hhdr Hsize Hid d'. subst d'. change (kind ∈ kinds) in Hin.
  destruct (register_axlf_run top d) as (d' & -> & _ & Huu & Hlk).
  cbn [snd].
  assert (Hchk : uuid_bool xclbin_id && uuid_neq xclbin_id (m_xclbin_uuid d')
                 = false).
  { destruct Hid as [-> | ->]; [done|].
    rewrite Huu. unfold uuid_neq. rewrite bool_decide_eq_true_2 by done.
    apply andb_false_r. }
  assert (Hdata : exists b v, section_data top hdr = b :: v).
  { pose proof (read_range_length (axlf_mem top) (m_sectionOffset hdr)
                  (m_sectionSize hdr)) as Hlen.
    fold (section_data top hdr) in Hlen.
    destruct (section_data top hdr) as [|b v]; [cbn in Hlen; lia | eauto]. }
  destruct Hdata as (b & v & Hdata).
  assert (Hlen : vector_size (b :: v) = Z.of_nat (m_sectionSize hdr)).
  { unfold vector_size. rewrite <- Hdata. unfold section_data.
    by rewrite read_range_length. }
  rewrite (get_axlf_section_or_error_match _ _ _ Hchk).
  rewrite (get_axlf_section_match _ _ _ Hchk).
  rewrite Hlk, bool_decide_eq_true_2, Hhdr by done. cbn [fmap option_fmap option_map].
  rewrite Hdata. cbn [vector_data]. by rewrite Hlen.
Qed.

(** The memory topology of the full container, asked for with the uuid
    of the container and with the null id. *)
Lemma register_axlf_then_get_witness :
  get_axlf_section_or_error MEM_TOPOLOGY (mk_uuid (repeat x33 16))
    (snd (register_axlf full_top stale_device))
  = (Ret (Some [xa8; xa9], 2), snd (register_axlf full_top stale_device))
  /\ get_axlf_section MEM_TOPOLOGY uuid_nil
       (snd (register_axlf full_top stale_device))
     = (Ret (Some [xa8; xa9], 2), snd (register_axlf full_top stale_device)).
Proof.
  split.
  - apply (register_axlf_then_get full_top stale_device MEM_TOPOLOGY
             {| m_sectionKind := MEM_TOPOLOGY;
                m_sectionOffset := 8; m_sectionSize := 2 |}
             (mk_uuid (repeat x33 16))).
    + is_a_kind.
    + reflexivity.
    + cbn. lia.
    + right. reflexivity.
  - apply (register_axlf_then_get full_top stale_device MEM_TOPOLOGY
             {| m_sectionKind := MEM_TOPOLOGY;
                m_sectionOffset := 8; m_sectionSize := 2 |}
             uuid_nil).
    + is_a_kind.
    + reflexivity.
    + cbn. lia.
    + left. reflexivity.
Defined.

(** X2.  [register_axlf] forgets what was registered before: registering a
    container twice is registering it once, and registering a second
    container after a first is registering the second alone. *)
Theorem register_axlf_last_wins (top1 top2 : axlf) (d : device) :
  snd (register_axlf top2 (snd (register_axlf top2 d)))
  = snd (register_axlf top2 d)
  /\ snd (register_axlf top2 (snd (register_axlf top1 d)))
     = snd (register_axlf top2 d).
Proof.
  split; apply register_axlf_state; apply register_axlf_device_id.
Qed.

(** X3.  The pair that [get_axlf_section] returns is consistent, for any
    device: the size is not negative, the pointer is null exactly when the
    size is 0, and a pointer that is not null leads to the bytes stored
    for the kind, as many as the size says. *)
Theorem get_axlf_section_pair (section : axlf_section_kind) (xclbin_id : uuid)
    (d : device) (p : ptr) (n : Z) :
  fst (get_axlf_section section xclbin_id d) = Ret (p, n) ->
  0 <= n
  /\ (p = nullptr <-> n = 0)
  /\ (forall v, p = Some v ->
        m_axlf_sections d !! section = Some v /\ n = Z.of_nat (length v)).
Proof.
  destruct (uuid_bool xclbin_id && uuid_neq xclbin_id (m_xclbin_uuid d)) eqn:Hchk.
  - by rewrite (get_axlf_section_mismatch _ _ _ Hchk).
  - rewrite (get_axlf_section_match _ _ _ Hchk). cbn [fst].
    destruct (m_axlf_sections d !! section) as [[|b v]|];
      intros [= <- <-]; unfold nullptr, vector_size; cbn [vector_data length].
    + repeat split; auto; try lia; discriminate.
    + split; [lia|]. split; [split; [discriminate | lia]|].
      by intros w [= <-].
    + repeat split; auto; try lia; discriminate.
Qed.

Lemma get_axlf_section_pair_witness :
  m_axlf_sections sample_device !! EMBEDDED_METADATA
  = Some [x3c; x78; x6d; x6c; x3e]
  /\ 5 = Z.of_nat (length [x3c; x78; x6d; x6c; x3e]).
Proof.
  destruct (get_axlf_section_pair EMBEDDED_METADATA uuid_nil sample_device
              (Some [x3c; x78; x6d; x6c; x3e]) 5 eq_refl) as (_ & _ & Hv).
  exact (Hv [x3c; x78; x6d; x6c; x3e] eq_refl).
Defined.

(** X4.  [get_axlf_section_or_error] differs from [get_axlf_section] only
    where that returns the null pointer: whenever it returns, it returns
    what [get_axlf_section] returns, with a pointer that is not null and a
    positive size; an exception of [get_axlf_section] is passed on; and the
    device is the same afterwards. *)
Theorem get_axlf_section_or_error_refines (section : axlf_section_kind)
    (xclbin_id : uuid) (d : device) :
  (forall r,
     fst (get_axlf_section_or_error section xclbin_id d) = Ret r <->
     fst (get_axlf_section section xclbin_id d) = Ret r /\ fst r <> nullptr)
  /\ (forall r,
        fst (get_axlf_section_or_error section xclbin_id d) = Ret r ->
        0 < snd r)
  /\ (forall e,
        fst (get_axlf_section section xclbin_id d) = Throw e ->
        fst (get_axlf_section_or_error section xclbin_id d) = Throw e)
  /\ snd (get_axlf_section_or_error section xclbin_id d) = d.
Proof.
  destruct (uuid_bool xclbin_id && uuid_neq xclbin_id (m_xclbin_uuid d)) eqn:Hchk.
  - rewrite (get_axlf_section_or_error_mismatch _ _ _ Hchk).
    rewrite (get_axlf_section_mismatch _ _ _ Hchk). cbn [fst snd].
    repeat split; try discriminate; try done. by intros [? _].
  - rewrite (get_axlf_section_or_error_match _ _ _ Hchk).
    rewrite (get_axlf_section_match _ _ _ Hchk).
    destruct (m_axlf_sections d !! section) as [[|b v]|];
      cbn [fst snd vector_data]; unfold nullptr, vector_size.
    + repeat split; try discriminate; try done. by intros [[= <-] Hn].
    + split; [|split; [|split]]; try done.
      * intros r. split; [intros [= <-]; split; [done | discriminate]|].
        by intros [[= <-] _].
      * intros r [= <-]. cbn [snd length]. lia.
    + repeat split; try discriminate; try done. by intros [[= <-] Hn].
Qed.

Lemma get_axlf_section_or_error_refines_witness :
  fst (get_axlf_section EMBEDDED_METADATA uuid_nil sample_device)
  = Ret (Some [x3c; x78; x6d; x6c; x3e], 5)
  /\ fst (Some [x3c; x78; x6d; x6c; x3e] : ptr, 5) <> nullptr.
Proof.
  apply (get_axlf_section_or_error_refines EMBEDDED_METADATA uuid_nil
           sample_device).
  reflexivity.
Defined.

Lemma uuid_bool_not_nil id : uuid_bool id = true -> id <> uuid_nil.
Proof. intros H ->. discriminate H. Qed.

(** X5.  A device on which no container was registered holds no section
    and accepts the null id only: [get_axlf_section] gives the null
    pointer and size 0 for the null id and throws for every other id, for
    every kind; [get_axlf_section_or_error] always throws
    [std::runtime_error]; and [get_ert_slots()] throws for want of xml
    metadata. *)
Theorem new_device_has_no_section (device_id : Z) (section : axlf_section_kind)
    (xclbin_id : uuid) :
  let d := new_device device_id in
  get_axlf_section section xclbin_id d
  = (if uuid_bool xclbin_id
     then Throw (runtime_error "xclbin id mismatch")
     else Ret (nullptr, 0), d)
  /\ (exists what,
        get_axlf_section_or_error section xclbin_id d
        = (Throw (runtime_error what), d))
  /\ (forall cq slotsize cus max_cu,
        get_ert_slots_xclbin cq slotsize cus max_cu d
        = (Throw (runtime_error "No xml metadata in xclbin"), d)).
Proof.
  intros d. subst d.
  destruct (uuid_bool xclbin_id) eqn:Hb.
  - assert (Hchk : uuid_bool xclbin_id
                   && uuid_neq xclbin_id (m_xclbin_uuid (new_device device_id))
                   = true).
    { rewrite Hb. cbn [andb]. apply uuid_neq_true. by apply uuid_bool_not_nil. }
    rewrite (get_axlf_section_mismatch _ _ _ Hchk).
    rewrite (get_axlf_section_or_error_mismatch _ _ _ Hchk).
    split; [done|]. split; [eauto|].
    intros cq slotsize cus max_cu.
    unfold get_ert_slots_xclbin, mbind.
    by rewrite get_axlf_section_match by reflexivity.
  - assert (Hchk : uuid_bool xclbin_id
                   && uuid_neq xclbin_id (m_xclbin_uuid (new_device device_id))
                   = false) by (by rewrite Hb).
    rewrite (get_axlf_section_match _ _ _ Hchk).
    rewrite (get_axlf_section_or_error_match _ _ _ Hchk).
    split; [done|]. split; [cbn; eauto|].
    intros cq slotsize cus max_cu.
    unfold get_ert_slots_xclbin, mbind.
    by rewrite get_axlf_section_match by reflexivity.
Qed.

(** ** More on the command-queue slots *)

Lemma div_div_ge cq size : 0 < size <= cq -> size <= cq / (cq / size).
Proof.
  intros H.
  assert (1 <= cq / size) by (apply Z.div_le_lower_bound; lia).
  apply Z.div_le_lower_bound; [lia|].
  pose proof (Z.mul_div_le cq size ltac:(lia)). lia.
Qed.

Lemma div_lt_succ_mul cq m : 0 < m -> cq < (cq / m + 1) * m.
Proof.
  intros H. pose proof (Z.mod_pos_bound cq m H).
  pose proof (Z.div_mod cq m ltac:(lia)). lia.
Qed.

(** With a queue of at least 128 * 128 bytes, as many slots of size
    [cq / slots] fit as were asked for. *)
Lemma div_div_wanted cq slots :
  16384 <= cq -> 16 <= slots <= 128 -> cq / (cq / slots) = slots.
Proof.
  intros Hcq Hs.
  assert (Hq : 128 <= cq / slots) by (apply Z.div_le_lower_bound; nia).
  pose proof (Z.mod_pos_bound cq slots ltac:(lia)) as Hr.
  pose proof (Z.div_mod cq slots ltac:(lia)) as Hdm.
  symmetry. apply (Z.div_unique_pos cq (cq / slots) slots (cq mod slots)); lia.
Qed.

Lemma round_slots_ge slots :
  1 <= slots <= 128 ->
  slots <= round_slots slots < slots + 32
  /\ (round_slots slots <= 16 -> round_slots slots = slots)
  /\ (16 < slots -> slots mod 32 <> 0 -> slots + 1 <= round_slots slots).
Proof.
  intros Hs. unfold round_slots.
  destruct (Z.gtb_spec slots 16) as [Hgt|Hle]; [|lia].
  assert (Hidx : 0 <= (slots - 1) / 32 <= 3).
  { split; [apply Z.div_pos; lia|].
    assert ((slots - 1) / 32 < 4); [|lia].
    apply Z.div_lt_upper_bound; lia. }
  rewrite to_u64_small by (unfold Int.UINT64_MOD; lia).
  pose proof (Z.div_mod (slots - 1) 32 ltac:(lia)) as Hdm.
  pose proof (Z.mod_pos_bound (slots - 1) 32 ltac:(lia)) as Hr.
  split; [lia|]. split; [lia|].
  intros _ Hne.
  destruct (Z.eq_dec ((slots - 1) mod 32) 31) as [H31|H31]; [|lia].
  exfalso. apply Hne.
  replace slots with (((slots - 1) / 32 + 1) * 32) by lia.
  apply Z.mod_mul. lia.
Qed.

Section ErtSlotsMore.

Variable ERT_CQ_SIZE : Z.
Variable get_ert_slotsize : Z.
Variable get_cus : ptr -> Z -> outcome (list Z).
Variable get_max_cu_size : ptr -> Z -> outcome Z.

Local Abbreviation slots_of :=
  (get_ert_slots ERT_CQ_SIZE get_ert_slotsize get_cus get_max_cu_size).
Local Abbreviation slots_of_xclbin :=
  (get_ert_slots_xclbin ERT_CQ_SIZE get_ert_slotsize get_cus get_max_cu_size).

(** The value on the path of xrt.ini. *)
Lemma get_ert_slots_ini_value xml_data xml_size d :
  0 < get_ert_slotsize ->
  slots_of xml_data xml_size d =
  if ERT_CQ_SIZE / get_ert_slotsize >? 128
  then (Throw (runtime_error
                 ("invalid slot size '" +:+ to_string get_ert_slotsize
                  +:+ "' in xrt.ini")), d)
  else (Ret (ERT_CQ_SIZE / get_ert_slotsize, get_ert_slotsize), d).
Proof.
  intros Hs. unfold get_ert_slots, mbind, mlift.
  destruct (Z.eqb_spec get_ert_slotsize 0) as [Hz|_]; [lia|].
  cbn [negb]. rewrite udiv_nonzero by lia. unfold max_slots.
  by destruct (ERT_CQ_SIZE / get_ert_slotsize >? 128).
Qed.

(** The value on the default path. *)
Lemma get_ert_slots_default_value xml_data xml_size d cus max_cu :
  get_ert_slotsize = 0 ->
  16384 <= ERT_CQ_SIZE ->
  get_cus xml_data xml_size = Ret cus ->
  get_max_cu_size xml_data xml_size = Ret max_cu ->
  0 <= max_cu <= ERT_CQ_SIZE ->
  let wanted := wanted_slots (Z.of_nat (length cus)) in
  let size := Z.max (ERT_CQ_SIZE / wanted) max_cu in
  let slots := round_slots (ERT_CQ_SIZE / size) in
  slots_of xml_data xml_size d = (Ret (slots, ERT_CQ_SIZE / slots), d)
  /\ 16 <= wanted <= 128
  /\ 128 <= ERT_CQ_SIZE / wanted
  /\ 0 < size <= ERT_CQ_SIZE
  /\ 1 <= ERT_CQ_SIZE / size <= 128
  /\ 1 <= slots <= 128.
Proof.
  intros Hini Hcq Hcus Hmax Hmax_cu wanted size slots.
  pose proof (wanted_slots_range (Z.of_nat (length cus))) as Hwant.
  cbv zeta in Hwant. fold (wanted_slots (Z.of_nat (length cus))) in Hwant.
  fold wanted in Hwant.
  destruct (slot_size_bounds ERT_CQ_SIZE wanted max_cu) as [Hsize Hfit];
    [lia | lia | lia |].
  fold size in Hsize, Hfit.
  destruct (round_slots_bounds (ERT_CQ_SIZE / size) Hfit) as [Hround _].
  fold (round_slots (ERT_CQ_SIZE / size)) in Hround. fold slots in Hround.
  assert (Hq : 128 <= ERT_CQ_SIZE / wanted)
    by (apply Z.div_le_lower_bound; nia).
  assert (Hle : ERT_CQ_SIZE / wanted <= ERT_CQ_SIZE)
    by (apply Z.div_le_upper_bound; nia).
  split; [|repeat split; try lia; unfold size; lia].
  unfold get_ert_slots, mbind, mlift.
  rewrite Hini, Hcus, Hmax. cbn [Z.eqb negb].
  fold (wanted_slots (Z.of_nat (length cus))). fold wanted.
  rewrite (udiv_nonzero _ wanted) by lia. fold size.
  rewrite (udiv_nonzero _ size) by lia.
  fold (round_slots (ERT_CQ_SIZE / size)). fold slots.
  by rewrite (udiv_nonzero _ slots) by lia.
Qed.

(** X6.  [get_ert_slots()] after [register_axlf(top)]: when [top] has xml
    metadata of at least one byte, it is [get_ert_slots] called with the
    pointer to exactly those bytes and their number; when [top] has no
    xml metadata, or xml metadata of size 0, it throws
    [std::runtime_error] with the text [No xml metadata in xclbin]. *)
Theorem get_ert_slots_xclbin_after_register (top : axlf) (d : device) :
  let d' := snd (register_axlf top d) in
  (forall hdr,
     xclbin_get_axlf_section top EMBEDDED_METADATA = Some hdr ->
     (0 < m_sectionSize hdr)%nat ->
     slots_of_xclbin d'
     = slots_of (Some (section_data top hdr)) (Z.of_nat (m_sectionSize hdr)) d')
  /\ (xclbin_get_axlf_section top EMBEDDED_METADATA = None
      \/ (exists hdr,
            xclbin_get_axlf_section top EMBEDDED_METADATA = Some hdr
            /\ m_sectionSize hdr = 0%nat) ->
      slots_of_xclbin d'
      = (Throw (runtime_error "No xml metadata in xclbin"), d')).
Proof.
  intros d'. subst d'.
  destruct (register_axlf_run top d) as (d' & -> & _ & _ & Hlk).
  cbn [snd]. specialize (Hlk EMBEDDED_METADATA).
  rewrite bool_decide_eq_true_2 in Hlk by (apply elem_of_cons; auto).
  unfold get_ert_slots_xclbin, mbind.
  rewrite get_axlf_section_match by reflexivity. rewrite Hlk.
  split.
  - intros hdr -> Hsize. cbn [fmap option_fmap option_map].
    pose proof (read_range_length (axlf_mem top) (m_sectionOffset hdr)
                  (m_sectionSize hdr)) as Hlen.
    fold (section_data top hdr) in Hlen.
    destruct (section_data top hdr) as [|b v] eqn:Hdata;
      [cbn in Hlen; lia|].
    cbn [vector_data fst snd]. unfold vector_size. by rewrite Hlen.
  - intros [-> | (hdr & -> & Hsize)]; [done|].
    cbn [fmap option_fmap option_map].
    pose proof (read_range_length (axlf_mem top) (m_sectionOffset hdr)
                  (m_sectionSize hdr)) as Hlen.
    fold (section_data top hdr) in Hlen. rewrite Hsize in Hlen.
    by destruct (section_data top hdr).
Qed.

(** X7.  [get_ert_slots] is a [const] member and hides no exception of
    the parsers: the device is the same after the call whatever its
    outcome, with or without arguments; and with no slot size in xrt.ini,
    an exception of [get_cus], or of [get_max_cu_size] after [get_cus]
    returned, is the outcome of the call. *)
Theorem get_ert_slots_const (xml_data : ptr) (xml_size : Z) (d : device) :
  snd (slots_of xml_data xml_size d) = d
  /\ snd (slots_of_xclbin d) = d
  /\ (forall e,
        get_ert_slotsize = 0 ->
        get_cus xml_data xml_size = Throw e ->
        slots_of xml_data xml_size d = (Throw e, d))
  /\ (forall e cus,
        get_ert_slotsize = 0 ->
        get_cus xml_data xml_size = Ret cus ->
        get_max_cu_size xml_data xml_size = Throw e ->
        slots_of xml_data xml_size d = (Throw e, d)).
Proof.
  assert (Hconst : forall p n, snd (slots_of p n d) = d).
  { intros p n. unfold get_ert_slots, mbind, mlift, mthrow, mret.
    repeat case_match; simplify_eq; done. }
  split; [apply Hconst|]. split; [|split].
  - unfold get_ert_slots_xclbin, mbind.
    destruct (get_axlf_section EMBEDDED_METADATA uuid_nil d) as [o d0] eqn:Hget.
    pose proof (get_axlf_section_state EMBEDDED_METADATA uuid_nil d) as Hst.
    rewrite Hget in Hst. cbn [snd] in Hst. subst d0.
    destruct o as [[p n]| |]; [|done|done].
    cbn [fst snd]. destruct p; [apply Hconst | done].
  - intros e Hini Hcus. unfold get_ert_slots, mbind, mlift.
    by rewrite Hini, Hcus.
  - intros e cus Hini Hcus Hmax. unfold get_ert_slots, mbind, mlift.
    rewrite Hini, Hcus, Hmax. cbn [Z.eqb negb].
    pose proof (wanted_slots_range (Z.of_nat (length cus))) as Hwant.
    cbv zeta in Hwant. by rewrite udiv_nonzero by lia.
Qed.

(** X8.  On the path of xrt.ini, for a slot size [s > 0] and a queue size
    that is not negative: the call throws exactly when 129 slots fit the
    queue ([129 * s <= ERT_CQ_SIZE]); what it returns otherwise is [s]
    with the largest number of slots of that size that fit the queue, at
    most 128; and that number is 0, without any error, exactly when [s]
    is larger than the queue. *)
Theorem get_ert_slots_ini_fits (xml_data : ptr) (xml_size : Z) (d : device) :
  0 < get_ert_slotsize ->
  0 <= ERT_CQ_SIZE ->
  ((exists e, fst (slots_of xml_data xml_size d) = Throw e)
   <-> 129 * get_ert_slotsize <= ERT_CQ_SIZE)
  /\ (forall slots size,
        fst (slots_of xml_data xml_size d) = Ret (slots, size) ->
        size = get_ert_slotsize
        /\ 0 <= slots <= 128
        /\ slots * size <= ERT_CQ_SIZE < (slots + 1) * size
        /\ (slots = 0 <-> ERT_CQ_SIZE < get_ert_slotsize)).
Proof.
  intros Hs Hcq. rewrite get_ert_slots_ini_value by done.
  pose proof (Z.div_mod ERT_CQ_SIZE get_ert_slotsize ltac:(lia)) as Hdm.
  pose proof (Z.mod_pos_bound ERT_CQ_SIZE get_ert_slotsize Hs) as Hr.
  assert (Hq : 0 <= ERT_CQ_SIZE / get_ert_slotsize) by (apply Z.div_pos; lia).
  destruct (Z.gtb_spec (ERT_CQ_SIZE / get_ert_slotsize) 128) as [Hgt|Hle];
    cbn [fst].
  - split; [|discriminate]. split; [nia | eauto].
  - split.
    + split; [intros [e He]; discriminate | nia].
    + intros slots size [= <- <-]. repeat split; try lia; nia.
Qed.

(** X9.  On the default path, when the largest compute unit is no bigger
    than the share of the queue that the slots asked for leave it
    ([max_cu <= ERT_CQ_SIZE / wanted], where [wanted] is twice the number
    of compute units plus one, at least 16 and at most 128), the call
    returns at least the slots asked for and fewer than 32 more: exactly
    16 for up to 7 compute units. *)
Theorem get_ert_slots_enough (xml_data : ptr) (xml_size : Z) (d : device)
    (cus : list Z) (max_cu : Z) :
  get_ert_slotsize = 0 ->
  16384 <= ERT_CQ_SIZE ->
  get_cus xml_data xml_size = Ret cus ->
  get_max_cu_size xml_data xml_size = Ret max_cu ->
  Z.of_nat (length cus) < 2 ^ 62 ->
  let wanted := Z.min 128 (Z.max 16 (2 * Z.of_nat (length cus) + 1)) in
  0 <= max_cu <= ERT_CQ_SIZE / wanted ->
  exists slots size,
    slots_of xml_data xml_size d = (Ret (slots, size), d)
    /\ wanted <= slots < wanted + 32
    /\ (Z.of_nat (length cus) <= 7 -> slots = 16).
Proof.
  intros Hini Hcq Hcus Hmax Hn wanted Hmax_cu.
  assert (Hw : wanted_slots (Z.of_nat (length cus)) = wanted).
  { unfold wanted_slots, max_slots, min_slots.
    rewrite to_u64_small by (unfold Int.UINT64_MOD; lia). subst wanted. lia. }
  assert (Hwr : 16 <= wanted <= 128) by (subst wanted; lia).
  assert (Hle : ERT_CQ_SIZE / wanted <= ERT_CQ_SIZE)
    by (apply Z.div_le_upper_bound; nia).
  destruct (get_ert_slots_default_value xml_data xml_size d cus max_cu
              Hini Hcq Hcus Hmax ltac:(lia)) as (Hrun & _ & _ & _ & Hfit & _).
  rewrite Hw in Hrun, Hfit.
  rewrite (Z.max_l (ERT_CQ_SIZE / wanted) max_cu) in Hrun, Hfit by lia.
  rewrite div_div_wanted in Hrun, Hfit by lia.
  destruct (round_slots_ge wanted Hfit) as (Hge & Hsame & _).
  eexists _, _. split; [exact Hrun|]. split; [exact Hge|].
  intros H7. assert (wanted = 16) as -> by (subst wanted; lia). reflexivity.
Qed.

(** X10.  On the default path, when the call returns at most 16 slots,
    every slot holds the largest compute unit, and is at least the share
    of the queue that the slots asked for leave. *)
Theorem get_ert_slots_few_slots_hold_cu (xml_data : ptr) (xml_size : Z)
    (d : device) (cus : list Z) (max_cu slots size : Z) :
  get_ert_slotsize = 0 ->
  16384 <= ERT_CQ_SIZE ->
  get_cus xml_data xml_size = Ret cus ->
  get_max_cu_size xml_data xml_size = Ret max_cu ->
  0 <= max_cu <= ERT_CQ_SIZE ->
  fst (slots_of xml_data xml_size d) = Ret (slots, size) ->
  slots <= 16 ->
  max_cu <= size
  /\ ERT_CQ_SIZE / wanted_slots (Z.of_nat (length cus)) <= size.
Proof.
  intros Hini Hcq Hcus Hmax Hmax_cu Hret Hfew.
  destruct (get_ert_slots_default_value xml_data xml_size d cus max_cu
              Hini Hcq Hcus Hmax Hmax_cu)
    as (Hrun & _ & _ & Hsize & Hfit & _).
  rewrite Hrun in Hret. cbn [fst] in Hret. injection Hret as Hslots Hsz.
  destruct (round_slots_ge _ Hfit) as (_ & Hsame & _).
  rewrite Hslots in Hsame, Hsz. specialize (Hsame Hfew).
  rewrite Hsame in Hsz.
  pose proof (div_div_ge ERT_CQ_SIZE _ Hsize) as Hge.
  rewrite Hsz in Hge. lia.
Qed.

(** X11.  On the default path, rounding the slots up can leave slots that
    are smaller than the largest compute unit: when the largest compute
    unit decides the slot size ([ERT_CQ_SIZE / wanted <= max_cu]) and the
    number of such slots that fit the queue is above 16 and not a
    multiple of 32, the slot size returned is below [max_cu]. *)
Theorem get_ert_slots_rounded_below_cu (xml_data : ptr) (xml_size : Z)
    (d : device) (cus : list Z) (max_cu : Z) :
  get_ert_slotsize = 0 ->
  16384 <= ERT_CQ_SIZE ->
  get_cus xml_data xml_size = Ret cus ->
  get_max_cu_size xml_data xml_size = Ret max_cu ->
  ERT_CQ_SIZE / wanted_slots (Z.of_nat (length cus)) <= max_cu <= ERT_CQ_SIZE ->
  16 < ERT_CQ_SIZE / max_cu ->
  (ERT_CQ_SIZE / max_cu) mod 32 <> 0 ->
  exists slots size,
    slots_of xml_data xml_size d = (Ret (slots, size), d)
    /\ ERT_CQ_SIZE / max_cu < slots
    /\ size < max_cu.
Proof.
  intros Hini Hcq Hcus Hmax Hmax_cu Hmany Hodd.
  pose proof (wanted_slots_range (Z.of_nat (length cus))) as Hwant.
  cbv zeta in Hwant. fold (wanted_slots (Z.of_nat (length cus))) in Hwant.
  assert (Hpos : 128 <= ERT_CQ_SIZE / wanted_slots (Z.of_nat (length cus)))
    by (apply Z.div_le_lower_bound; nia).
  destruct (get_ert_slots_default_value xml_data xml_size d cus max_cu
              Hini Hcq Hcus Hmax ltac:(lia))
    as (Hrun & _ & Hq & Hsize & Hfit & Hslots).
  rewrite (Z.max_r _ max_cu) in Hrun, Hsize, Hfit, Hslots by lia.
  destruct (round_slots_ge _ Hfit) as (_ & _ & Hup).
  specialize (Hup Hmany Hodd).
  eexists _, _. split; [exact Hrun|]. split; [lia|].
  apply Z.div_lt_upper_bound; [lia|].
  pose proof (div_lt_succ_mul ERT_CQ_SIZE max_cu ltac:(lia)). nia.
Qed.

End ErtSlotsMore.

Lemma get_ert_slots_xclbin_after_register_witness :
  get_ert_slots_xclbin 65536 0
    (fun _ _ => Ret (repeat 1 16)) (fun _ _ => Ret 100)
    (snd (register_axlf xml_only_top stale_device))
  = get_ert_slots 65536 0
      (fun _ _ => Ret (repeat 1 16)) (fun _ _ => Ret 100)
      (Some [x3c; x78; x6d; x6c; x3e]) 5
      (snd (register_axlf xml_only_top stale_device)).
Proof.
  destruct (get_ert_slots_xclbin_after_register 65536 0
              (fun _ _ => Ret (repeat 1 16)) (fun _ _ => Ret 100)
              xml_only_top stale_device) as [Hxml _].
  apply (Hxml {| m_sectionKind := EMBEDDED_METADATA;
                 m_sectionOffset := 0; m_sectionSize := 5 |}).
  - reflexivity.
  - cbn. lia.
Defined.

Lemma get_ert_slots_const_witness :
  get_ert_slots 65536 0
    (fun _ _ => Ret [1; 2]) (fun _ _ => Throw (other_exception "bad xml"))
    nullptr 0 sample_device
  = (Throw (other_exception "bad xml"), sample_device).
Proof.
  apply (get_ert_slots_const 65536 0
           (fun _ _ => Ret [1; 2]) (fun _ _ => Throw (other_exception "bad xml"))
           nullptr 0 sample_device) with (cus := [1; 2]); reflexivity.
Defined.

(** A slot size of 100000 bytes against a queue of 64 KiB: no slot. *)
Lemma get_ert_slots_ini_fits_witness :
  100000 = 100000
  /\ 0 <= 0 <= 128
  /\ 0 * 100000 <= 65536 < (0 + 1) * 100000
  /\ (0 = 0 <-> 65536 < 100000).
Proof.
  assert (Hs : 0 < 100000) by lia.
  assert (Hcq : 0 <= 65536) by lia.
  destruct (get_ert_slots_ini_fits 65536 100000
              (fun _ _ => Ret []) (fun _ _ => Ret 0)
              nullptr 0 sample_device Hs Hcq) as [_ Hret].
  exact (Hret 0 100000 eq_refl).
Defined.

(** Ten compute units of at most 3000 bytes: 21 slots asked for, 32
    returned. *)
Lemma get_ert_slots_enough_witness :
  exists slots size,
    get_ert_slots 65536 0
      (fun _ _ => Ret (repeat 1 10)) (fun _ _ => Ret 3000)
      nullptr 0 sample_device
    = (Ret (slots, size), sample_device)
    /\ 21 <= slots < 21 + 32
    /\ (Z.of_nat (length (repeat 1 10)) <= 7 -> slots = 16).
Proof.
  apply (get_ert_slots_enough 65536 0
           (fun _ _ => Ret (repeat 1 10)) (fun _ _ => Ret 3000)
           nullptr 0 sample_device (repeat 1 10) 3000);
    [reflexivity | lia | reflexivity | reflexivity | cbn; lia |].
  vm_compute. split; discriminate.
Defined.

(** Three compute units of 5000 bytes: 13 slots of 5041 bytes. *)
Lemma get_ert_slots_few_slots_hold_cu_witness :
  5000 <= 5041 /\ 65536 / wanted_slots (Z.of_nat (length [1; 2; 3])) <= 5041.
Proof.
  apply (get_ert_slots_few_slots_hold_cu 65536 0
           (fun _ _ => Ret [1; 2; 3]) (fun _ _ => Ret 5000)
           nullptr 0 sample_device [1; 2; 3] 5000 13 5041);
    [reflexivity | lia | reflexivity | reflexivity | lia | reflexivity | lia].
Defined.

(** Ten compute units, the largest of 3500 bytes: 18 such slots fit the
    queue, 32 slots of 2048 bytes are returned. *)
Lemma get_ert_slots_rounded_below_cu_witness :
  exists slots size,
    get_ert_slots 65536 0
      (fun _ _ => Ret (repeat 1 10)) (fun _ _ => Ret 3500)
      nullptr 0 sample_device
    = (Ret (slots, size), sample_device)
    /\ 65536 / 3500 < slots
    /\ size < 3500.
Proof.
  apply (get_ert_slots_rounded_below_cu 65536 0
           (fun _ _ => Ret (repeat 1 10)) (fun _ _ => Ret 3500)
           nullptr 0 sample_device (repeat 1 10) 3500);
    [reflexivity | lia | reflexivity | reflexivity
    | vm_compute; split; discriminate | reflexivity | vm_compute; discriminate].
Defined.

(** ** More on the uuid query *)

Section QueryMore.

Variable device_query_xclbin_uuid : device -> outcome string.
Variable uuid_of_string : string -> uuid.

Local Abbreviation xclbin_uuid_of :=
  (get_xclbin_uuid device_query_xclbin_uuid uuid_of_string).

(** X12.  [get_xclbin_uuid] swallows [query::no_such_key] and nothing
    else: it throws an exception exactly when the query throws it and it
    is not [no_such_key]; and the device is the same after the call. *)
Theorem get_xclbin_uuid_propagates (d : device) :
  (forall e,
     fst (xclbin_uuid_of d) = Throw e
     <-> device_query_xclbin_uuid d = Throw e /\ e <> no_such_key)
  /\ snd (xclbin_uuid_of d) = d.
Proof.
  unfold get_xclbin_uuid, catch_no_such_key, mbind, mget, mlift, mret.
  destruct (device_query_xclbin_uuid d) as [uuid_str| [ | | | ] |];
    cbn; (split; [|done]); intros e; split;
    first [ discriminate
          | by intros [= <-]
          | intros [[= <-] Hne]; done || by destruct Hne
          | intros [[=] _] ].
Qed.

End QueryMore.

(** ** More on the formatters *)

Ltac not_a_type :=
  let H := fresh in
  intros H;
  repeat (apply elem_of_cons in H as [H|H]; [discriminate H|]);
  by apply elem_of_nil in H.

Ltac is_a_type := repeat first [by apply list_elem_of_here | apply list_elem_of_further].

Lemma read_decimal_to_string v : 0 <= v -> read_decimal (to_string v) = Some v.
Proof.
  intros Hv. unfold read_decimal, to_string.
  rewrite DecimalString.NilZero.isi.
  - cbn. by rewrite DecimalZ.of_to.
  - destruct v as [|p|p]; cbn; [discriminate| |lia].
    intros [= H]. by apply DecimalPos.Unsigned.to_uint_nonnil in H.
  - destruct v as [|p|p]; [discriminate | discriminate | lia].
Qed.

Lemma read_hex_of_hex v : 0 <= v -> read_hex ("0x" +:+ hex v) = Some v.
Proof.
  intros Hv.
  change ("0x" +:+ hex v) with (String "0" (String "x" (hex v))).
  unfold hex. cbn [read_hex].
  rewrite HexadecimalString.NilZero.usu.
  - cbn. rewrite HexadecimalN.Unsigned.of_to. f_equal. lia.
  - destruct (Z.to_N v) as [|p]; cbn; [discriminate|].
    apply HexadecimalPos.Unsigned.to_uint_nonnil.
Qed.

Section FormatMore.

Variable type_name : type_id -> string.
Variable double : Type.
Variable double_of_uint64 : Z -> double.
Variable double_of_literal : Z -> double.
Variable double_div : double -> double -> double.
Variable to_string_fixed : double -> Z -> string.

Local Abbreviation shiftdown3 :=
  (format_base10_shiftdown3 type_name double double_of_uint64
     double_of_literal double_div to_string_fixed).
Local Abbreviation shiftdown6 :=
  (format_base10_shiftdown6 type_name double double_of_uint64
     double_of_literal double_div to_string_fixed).

(** X13.  Which types each formatter takes.  [format_primative] throws
    exactly for a type other than string, [uint64_t], [uint16_t] and
    [bool], and so do the two decimal formatters; [format_hex] takes
    [uint8_t] as well; [format_hex_base2_shiftup30] takes string,
    [uint64_t] and [bool] only.  Whatever a formatter throws is
    [xrt_core::error]. *)
Theorem formatters_accept (a : any) :
  ((exists e, format_primative type_name a = Throw e)
   <-> any_type a ∉ [ty_string; ty_uint64; ty_uint16; ty_bool])
  /\ ((exists e, format_hex type_name a = Throw e)
      <-> any_type a ∉ [ty_string; ty_uint64; ty_uint16; ty_uint8; ty_bool])
  /\ ((exists e, format_hex_base2_shiftup30 type_name a = Throw e)
      <-> any_type a ∉ [ty_string; ty_uint64; ty_bool])
  /\ ((exists e, shiftdown3 a = Throw e)
      <-> any_type a ∉ [ty_string; ty_uint64; ty_uint16; ty_bool])
  /\ ((exists e, shiftdown6 a = Throw e)
      <-> any_type a ∉ [ty_string; ty_uint64; ty_uint16; ty_bool])
  /\ (forall f e,
        f ∈ [format_primative type_name; format_hex type_name;
             format_hex_base2_shiftup30 type_name; shiftdown3; shiftdown6] ->
        f a = Throw e -> exists what, e = xrt_error what).
Proof.
  repeat split.
  all: try (intros [e He]; destruct a; try discriminate He; not_a_type).
  all: try (intros Hn; destruct a; cbn; eauto; exfalso; apply Hn; is_a_type).
  intros f e Hf He.
  repeat (apply elem_of_cons in Hf as [->|Hf]);
    [..| by apply elem_of_nil in Hf];
    destruct a; cbn in He; try discriminate He; injection He as <-; eauto.
Qed.

(** X14.  The numerals are those of the value: for a [uint64_t] or a
    [uint16_t], the text of [format_primative] read as a decimal numeral
    is the value, and the text of [format_hex] read as [0x] and a
    hexadecimal numeral is the value.  So different values give different
    texts. *)
Theorem formatted_numerals_read_back (v : Z) :
  0 <= v ->
  (exists s, format_primative type_name (any_uint64 v) = Ret s
             /\ read_decimal s = Some v)
  /\ (exists s, format_primative type_name (any_uint16 v) = Ret s
                /\ read_decimal s = Some v)
  /\ (exists s, format_hex type_name (any_uint64 v) = Ret s
                /\ read_hex s = Some v)
  /\ (exists s, format_hex type_name (any_uint16 v) = Ret s
                /\ read_hex s = Some v).
Proof.
  intros Hv.
  pose proof (read_decimal_to_string v Hv) as Hdec.
  pose proof (read_hex_of_hex v Hv) as Hhex.
  repeat split; eexists; (split; [reflexivity|]); assumption.
Qed.

(** X15.  [format_hex_base2_shiftup30] of a [uint64_t] wraps: below 2^34
    the text is the numeral of the value times 2^30; adding 2^34 to a
    value does not change its text. *)
Theorem format_hex_base2_shiftup30_wraps (v : Z) :
  0 <= v ->
  format_hex_base2_shiftup30 type_name (any_uint64 (v + 2 ^ 34))
  = format_hex_base2_shiftup30 type_name (any_uint64 v)
  /\ (v < 2 ^ 34 ->
      exists s, format_hex_base2_shiftup30 type_name (any_uint64 v) = Ret s
                /\ read_hex s = Some (v * 2 ^ 30)).
Proof.
  intros Hv. cbn [format_hex_base2_shiftup30].
  unfold Int.to_u64, Int.UINT64_MOD. rewrite !Z.shiftl_mul_pow2 by lia.
  split.
  - replace ((v + 2 ^ 34) * 2 ^ 30) with (v * 2 ^ 30 + 1 * 2 ^ 64) by lia.
    by rewrite Z_mod_plus_full.
  - intros Hlt. rewrite Z.mod_small by lia.
    eexists. split; [reflexivity|]. apply read_hex_of_hex. lia.
Qed.

End FormatMore.

Lemma formatted_numerals_read_back_witness :
  exists s, format_hex (fun _ => "i") (any_uint64 48879) = Ret s
            /\ read_hex s = Some 48879.
Proof.
  apply (formatted_numerals_read_back (fun _ => "i") 48879). lia.
Defined.

(** 16 GiB and one: the text of 1 GiB. *)
Lemma format_hex_base2_shiftup30_wraps_witness :
  format_hex_base2_shiftup30 (fun _ => "i") (any_uint64 (1 + 2 ^ 34))
  = format_hex_base2_shiftup30 (fun _ => "i") (any_uint64 1).
Proof.
  apply (format_hex_base2_shiftup30_wraps (fun _ => "i") 1). lia.
Defined.

(** ** More on the binary attributes *)

Lemma to_u32_le z : 0 <= z -> Int.to_u32 z <= z.
Proof.
  intros H. unfold Int.to_u32, Int.UINT32_MOD. apply Z.mod_le; lia.
Qed.

(** A reader stays inside the section and inside the count. *)
Lemma read_sect_in_bounds size sect buffer offset count :
  0 <= size < Int.UINT64_MOD ->
  0 <= offset <= Int.SSIZE_MAX ->
  0 <= count ->
  let r := read_sect size sect buffer offset count in
  0 <= fst r <= count
  /\ fst r < Int.UINT32_MOD
  /\ (forall i, 0 <= i < fst r ->
        offset + i < size /\ snd r i = mem_of sect (offset + i))
  /\ (forall i, ~ 0 <= i < fst r -> snd r i = buffer i).
Proof.
  intros Hsize Hoff Hcount r. subst r. rewrite read_sect_spec by done.
  destruct (Z.geb_spec offset size) as [Hge|Hlt]; cbn [fst snd].
  - unfold Int.UINT32_MOD. split; [lia|]. split; [lia|]. split.
    + intros i Hi. lia.
    + done.
  - pose proof (to_u32_le (Z.min count (size - offset)) ltac:(lia)) as Hle.
    pose proof (to_u32_range (Z.min count (size - offset))) as Hr.
    split; [lia|]. split; [lia|]. split.
    + intros i Hi. split; [lia|]. by apply memcpy_inside.
    + intros i Hi. by apply memcpy_outside.
Qed.

(** A reader that is asked for fewer than 2^32 bytes returns 0 at the end
    of the section and nowhere else. *)
Lemma read_sect_progress size sect buffer offset count :
  0 <= size < Int.UINT64_MOD ->
  0 <= offset <= Int.SSIZE_MAX ->
  0 < count < Int.UINT32_MOD ->
  let r := read_sect size sect buffer offset count in
  (fst r = 0 <-> size <= offset)
  /\ (offset < size -> fst r = Z.min count (size - offset) /\ 0 < fst r).
Proof.
  intros Hsize Hoff Hcount r. subst r. rewrite read_sect_spec by done.
  destruct (Z.geb_spec offset size) as [Hge|Hlt]; cbn [fst].
  - split; [done | lia].
  - rewrite to_u32_small by lia. split; [lia|]. lia.
Qed.

(** The bytes that a reader delivers. *)
Lemma read_sect_bytes size sect buffer offset count :
  0 <= size < Int.UINT64_MOD ->
  0 <= offset <= Int.SSIZE_MAX ->
  0 <= count < Int.UINT32_MOD ->
  let r := read_sect size sect buffer offset count in
  fst r = Z.max 0 (Z.min count (size - offset))
  /\ bytes_of (snd r) (fst r)
     = map (fun i => mem_of sect (offset + Z.of_nat i))
         (seq 0 (Z.to_nat (fst r))).
Proof.
  intros Hsize Hoff Hcount r.
  destruct (read_sect_in_bounds size sect buffer offset count Hsize Hoff
              ltac:(lia)) as (Hn & _ & Hin & _).
  fold r in Hn, Hin. split.
  - subst r. rewrite read_sect_spec by done.
    destruct (Z.geb_spec offset size) as [Hge|Hlt]; cbn [fst]; [lia|].
    rewrite to_u32_small by lia. lia.
  - unfold bytes_of. apply map_ext_in. intros i Hi%in_seq.
    apply Hin. lia.
Qed.

Lemma map_seq_split {A} (f : nat -> A) a b :
  map f (seq 0 (a + b)) = map f (seq 0 a) ++ map (fun i => f (a + i)%nat) (seq 0 b).
Proof.
  rewrite seq_app, map_app. f_equal. cbn [Nat.add].
  rewrite <- (map_map (Nat.add a) f). f_equal.
  change (map (Nat.add a) (seq 0 b)) with (Nat.add a <$> seq 0 b).
  by rewrite fmap_add_seq, Nat.add_0_r.
Qed.

(** Two reads in a row deliver what one read of both counts delivers. *)
Lemma read_sect_chunks size sect buf1 buf2 buf offset count1 count2 :
  0 <= size < Int.UINT64_MOD ->
  0 <= offset -> 0 <= count1 -> 0 <= count2 ->
  count1 + count2 < Int.UINT32_MOD ->
  offset + count1 <= Int.SSIZE_MAX ->
  let r1 := read_sect size sect buf1 offset count1 in
  let r2 := read_sect size sect buf2 (offset + fst r1) count2 in
  let r := read_sect size sect buf offset (count1 + count2) in
  fst r = fst r1 + fst r2
  /\ bytes_of (snd r) (fst r)
     = bytes_of (snd r1) (fst r1) ++ bytes_of (snd r2) (fst r2).
Proof.
  intros Hsize Hoff Hc1 Hc2 Hsum Hmax r1 r2 r.
  destruct (read_sect_bytes size sect buf1 offset count1 Hsize
              ltac:(lia) ltac:(lia)) as [Hn1 Hb1].
  fold r1 in Hn1, Hb1.
  assert (Hr1 : 0 <= fst r1 <= count1) by lia.
  destruct (read_sect_bytes size sect buf2 (offset + fst r1) count2 Hsize
              ltac:(lia) ltac:(lia)) as [Hn2 Hb2].
  fold r2 in Hn2, Hb2.
  destruct (read_sect_bytes size sect buf offset (count1 + count2) Hsize
              ltac:(lia) ltac:(lia)) as [Hn Hb].
  fold r in Hn, Hb.
  assert (Hadd : fst r = fst r1 + fst r2) by lia.
  split; [exact Hadd|].
  rewrite Hb, Hb1, Hb2, Hadd.
  rewrite Z2Nat.inj_add by lia. rewrite map_seq_split. f_equal.
  apply map_ext_in. intros i _. f_equal. lia.
Qed.

(** Nothing is read from a null section, and nothing at a negative
    offset from a section of at most 2^63 bytes. *)
Lemma read_sect_nothing size sect buffer offset count :
  size = 0 \/ (- 2 ^ 63 <= offset < 0 /\ size <= 2 ^ 63) ->
  read_sect size sect buffer offset count = (0, buffer).
Proof.
  intros H. unfold read_sect.
  pose proof (to_u64_range offset) as Hr.
  destruct (Z.geb_spec (Int.to_u64 offset) size) as [Hge|Hlt]; [done|].
  exfalso. destruct H as [-> | [Hoff Hsz]]; [lia|].
  assert (Int.to_u64 offset = offset + 2 ^ 64); [|lia].
  unfold Int.to_u64, Int.UINT64_MOD.
  symmetry. apply (Z.mod_unique_pos _ _ (-1)); lia.
Qed.

Section ReadersMore.

Variables m_debug_ip_data m_ip_data m_connection m_mem_data : sect_layout.

Local Abbreviation readers :=
  (bin_readers m_debug_ip_data m_ip_data m_connection m_mem_data).

(** A property of the common body holds of the four readers. *)
Lemma bin_readers_all (Q : bin_read_fn -> Z -> option ksection -> Prop)
    (xdev : xocl_dev) :
  (forall lay sect,
     Q (fun _ buffer offset count =>
          read_sect (sizeof_sect lay sect) sect buffer offset count)
       (sizeof_sect lay sect) sect) ->
  Forall (fun '(read, size, sect) =>
            Q (fun _ => read xdev) size sect) (readers xdev).
Proof.
  intros H. unfold bin_readers.
  repeat first [apply List.Forall_nil | apply List.Forall_cons].
  - exact (H m_debug_ip_data (debug_layout xdev)).
  - exact (H m_ip_data (layout xdev)).
  - exact (H m_connection (connectivity xdev)).
  - exact (H m_mem_data (topology xdev)).
Qed.

(** X16.  The four readers never leave the section nor the count: for an
    offset and a count that are not negative, what a reader returns is
    between 0 and [count] and below 2^32; every byte that it copies comes
    from an offset below the size of the section; and it writes to the
    first bytes of the buffer only, as many as it returns. *)
Theorem bin_attr_read_in_bounds (xdev : xocl_dev) (buffer : kmem)
    (offset count : Z) :
  0 <= offset <= Int.SSIZE_MAX ->
  0 <= count ->
  Forall
    (fun '(read, size, sect) =>
       let r : Z * kmem := read xdev buffer offset count in
       0 <= fst r <= count
       /\ fst r < Int.UINT32_MOD
       /\ (forall i, 0 <= i < fst r ->
             offset + i < size /\ snd r i = mem_of sect (offset + i))
       /\ (forall i, ~ 0 <= i < fst r -> snd r i = buffer i))
    (readers xdev).
Proof.
  intros Hoff Hcount.
  apply (bin_readers_all
           (fun read size sect =>
              let r : Z * kmem := read xdev buffer offset count in
              0 <= fst r <= count
              /\ fst r < Int.UINT32_MOD
              /\ (forall i, 0 <= i < fst r ->
                    offset + i < size /\ snd r i = mem_of sect (offset + i))
              /\ (forall i, ~ 0 <= i < fst r -> snd r i = buffer i))).
  intros lay sect.
  apply read_sect_in_bounds; auto using sizeof_sect_range.
Qed.

(** X17.  A read of at least one and fewer than 2^32 bytes returns 0
    exactly at or past the end of the section; before the end it returns
    the smaller of the count and the bytes that are left, which is
    positive. *)
Theorem bin_attr_read_progress (xdev : xocl_dev) (buffer : kmem)
    (offset count : Z) :
  0 <= offset <= Int.SSIZE_MAX ->
  0 < count < Int.UINT32_MOD ->
  Forall
    (fun '(read, size, sect) =>
       let r : Z * kmem := read xdev buffer offset count in
       (fst r = 0 <-> size <= offset)
       /\ (offset < size -> fst r = Z.min count (size - offset) /\ 0 < fst r))
    (readers xdev).
Proof.
  intros Hoff Hcount.
  apply (bin_readers_all
           (fun read size sect =>
              let r : Z * kmem := read xdev buffer offset count in
              (fst r = 0 <-> size <= offset)
              /\ (offset < size ->
                  fst r = Z.min count (size - offset) /\ 0 < fst r))).
  intros lay sect.
  apply read_sect_progress; auto using sizeof_sect_range.
Qed.

(** X18.  Reading in two steps is reading in one: a read of [count1]
    bytes at [offset] followed by a read of [count2] bytes where the first
    ended delivers, in this order, the bytes that one read of
    [count1 + count2] bytes at [offset] delivers, whatever the buffers
    held, as long as the counts add up to fewer than 2^32. *)
Theorem bin_attr_read_chunks (xdev : xocl_dev) (buf1 buf2 buf : kmem)
    (offset count1 count2 : Z) :
  0 <= offset -> 0 <= count1 -> 0 <= count2 ->
  count1 + count2 < Int.UINT32_MOD ->
  offset + count1 <= Int.SSIZE_MAX ->
  Forall
    (fun '(read, size, sect) =>
       let r1 : Z * kmem := read xdev buf1 offset count1 in
       let r2 : Z * kmem := read xdev buf2 (offset + fst r1) count2 in
       let r : Z * kmem := read xdev buf offset (count1 + count2) in
       fst r = fst r1 + fst r2
       /\ bytes_of (snd r) (fst r)
          = bytes_of (snd r1) (fst r1) ++ bytes_of (snd r2) (fst r2))
    (readers xdev).
Proof.
  intros Hoff Hc1 Hc2 Hsum Hmax.
  apply (bin_readers_all
           (fun read size sect =>
              let r1 : Z * kmem := read xdev buf1 offset count1 in
              let r2 : Z * kmem := read xdev buf2 (offset + fst r1) count2 in
              let r : Z * kmem := read xdev buf offset (count1 + count2) in
              fst r = fst r1 + fst r2
              /\ bytes_of (snd r) (fst r)
                 = bytes_of (snd r1) (fst r1) ++ bytes_of (snd r2) (fst r2))).
  intros lay sect.
  apply read_sect_chunks; auto using sizeof_sect_range.
Qed.

(** X19.  A reader reads nothing, and leaves the buffer alone, when the
    device has no section of its kind (a null pointer), for every offset
    and count; and when the offset is negative and the section has at
    most 2^63 bytes. *)
Theorem bin_attr_read_nothing (xdev : xocl_dev) (buffer : kmem)
    (offset count : Z) :
  Forall
    (fun '(read, size, sect) =>
       sect = None \/ (- 2 ^ 63 <= offset < 0 /\ size <= 2 ^ 63) ->
       read xdev buffer offset count = (0, buffer))
    (readers xdev).
Proof.
  apply (bin_readers_all
           (fun read size sect =>
              sect = None \/ (- 2 ^ 63 <= offset < 0 /\ size <= 2 ^ 63) ->
              read xdev buffer offset count = (0, buffer))).
  intros lay sect H. apply read_sect_nothing.
  destruct H as [-> | H]; [by left | by right].
Qed.

End ReadersMore.

(** A read of 100 bytes at offset 4 of the small section returns no more
    than 100. *)
Lemma bin_attr_read_in_bounds_witness :
  0 <= fst (read_ip_layout narrow_layout small_xdev user_buffer 4 100) <= 100.
Proof.
  assert (Hoff : 0 <= 4 <= Int.SSIZE_MAX) by (unfold Int.SSIZE_MAX; lia).
  assert (Hcount : 0 <= 100) by lia.
  pose proof (bin_attr_read_in_bounds narrow_layout narrow_layout
                narrow_layout narrow_layout small_xdev user_buffer 4 100
                Hoff Hcount) as HF.
  unfold bin_readers in HF.
  apply List.Forall_inv_tail, List.Forall_inv in HF.
  exact (proj1 HF).
Defined.

(** At the end of the 16 bytes of the small section a read returns 0. *)
Lemma bin_attr_read_progress_witness :
  fst (read_ip_layout narrow_layout small_xdev user_buffer 16 8) = 0
  <-> sizeof_sect narrow_layout (layout small_xdev) <= 16.
Proof.
  assert (Hoff : 0 <= 16 <= Int.SSIZE_MAX) by (unfold Int.SSIZE_MAX; lia).
  assert (Hcount : 0 < 8 < Int.UINT32_MOD) by (unfold Int.UINT32_MOD; lia).
  pose proof (bin_attr_read_progress narrow_layout narrow_layout
                narrow_layout narrow_layout small_xdev user_buffer 16 8
                Hoff Hcount) as HF.
  unfold bin_readers in HF.
  apply List.Forall_inv_tail, List.Forall_inv in HF.
  exact (proj1 HF).
Defined.

(** Three bytes at offset 2 and five more, against eight bytes at
    offset 2. *)
Lemma bin_attr_read_chunks_witness :
  let r1 := read_ip_layout narrow_layout small_xdev user_buffer 2 3 in
  let r2 := read_ip_layout narrow_layout small_xdev user_buffer (2 + fst r1) 5 in
  let r := read_ip_layout narrow_layout small_xdev user_buffer 2 (3 + 5) in
  fst r = fst r1 + fst r2
  /\ bytes_of (snd r) (fst r)
     = bytes_of (snd r1) (fst r1) ++ bytes_of (snd r2) (fst r2).
Proof.
  assert (Hsum : 3 + 5 < Int.UINT32_MOD) by (unfold Int.UINT32_MOD; lia).
  assert (Hmax : 2 + 3 <= Int.SSIZE_MAX) by (unfold Int.SSIZE_MAX; lia).
  pose proof (bin_attr_read_chunks narrow_layout narrow_layout
                narrow_layout narrow_layout small_xdev
                user_buffer user_buffer user_buffer 2 3 5
                ltac:(lia) ltac:(lia) ltac:(lia) Hsum Hmax) as HF.
  unfold bin_readers in HF.
  apply List.Forall_inv_tail, List.Forall_inv in HF.
  exact HF.
Defined.

(** The small device has no debug IP layout. *)
Lemma bin_attr_read_nothing_witness :
  read_debug_ip_layout narrow_layout small_xdev user_buffer 0 64
  = (0, user_buffer).
Proof.
  pose proof (bin_attr_read_nothing narrow_layout narrow_layout
                narrow_layout narrow_layout small_xdev user_buffer 0 64) as HF.
  unfold bin_readers in HF.
  apply List.Forall_inv in HF.
  apply HF. left. reflexivity.
Defined.

Example bin_attr_read_chunks_bytes :
  bytes_of (snd (read_ip_layout narrow_layout small_xdev user_buffer 2 8)) 8
  = [x12; x13; x14; x15; x16; x17; x18; x19].
Proof. reflexivity. Qed.

(** A query that fails for another reason than a missing key. *)
Lemma get_xclbin_uuid_propagates_witness :
  fst (get_xclbin_uuid (fun _ => Throw (runtime_error "io"))
         (fun _ => uuid_nil) sample_device)
  = Throw (runtime_error "io").
Proof.
  apply (get_xclbin_uuid_propagates (fun _ => Throw (runtime_error "io"))
           (fun _ => uuid_nil) sample_device).
  split; [reflexivity | discriminate].
Defined.

(** A [uint16_t], which [format_hex] takes, is refused by
    [format_hex_base2_shiftup30]. *)
Lemma formatters_accept_witness :
  exists e, format_hex_base2_shiftup30 (fun _ => "i") (any_uint16 7) = Throw e.
Proof.
  apply (formatters_accept (fun _ => "i") Z (fun v => v) (fun v => v)
           Z.div (fun _ _ => "") (any_uint16 7)).
  not_a_type.
Defined.
